(** * spotdl-v4: query dispatcher and YouTube candidate search

    A shallow embedding of [spotdl/utils/query.py] ([parse_query],
    [get_simple_songs]) and of [spotdl/providers/audio/youtube.py]
    ([YouTube.search], [YouTube.order_results]).

    Python strings are [string]; Python numbers are integers ([Z]) and
    binary64 floats (the primitive [float]), with Python's mixed arithmetic
    written out; exceptions and calls to collaborators are threaded through
    a small trace-and-error monad. *)

From Stdlib Require Import String Ascii List Bool Arith ZArith QArith Lia.
From Stdlib Require Floats.
Import PrimFloat.
Import ListNotations.
Open Scope string_scope.

(** Floats are written as Python prints them: the shortest decimal that
    reads back as the same float. *)
Set Warnings "-inexact-float".

(** ** Python string built-ins used by the two modules *)

Module Py.

(** [sub in s] *)
Fixpoint str_in (sub s : string) : bool :=
  if prefix sub s then true
  else match s with
       | EmptyString => false
       | String _ s' => str_in sub s'
       end.

(** [s.split(c)] for a one-character separator [c]: never returns an empty
    list, [''.split('|') == ['']]. *)
Fixpoint split (c : ascii) (s : string) : list string :=
  match s with
  | EmptyString => [EmptyString]
  | String a s' =>
      if Ascii.eqb a c then EmptyString :: split c s'
      else match split c s' with
           | h :: t => String a h :: t
           | [] => [String a EmptyString]
           end
  end.

(** [s.replace(a, b)] for one-character [a] and [b]. *)
Fixpoint replace (a b : ascii) (s : string) : string :=
  match s with
  | EmptyString => EmptyString
  | String x s' => String (if Ascii.eqb x a then b else x) (replace a b s')
  end.

(** [s.endswith(suf)] *)
Definition endswith (suf s : string) : bool :=
  let n := String.length s in
  let m := String.length suf in
  (m <=? n)%nat && String.eqb (substring (n - m) m s) suf.

(** Truthiness of an optional string: [None] and [''] are falsy. *)
Definition truthy (o : option string) : bool :=
  match o with
  | Some s => negb (String.eqb s "")
  | None => false
  end.

(** [any(p(x) for x in l)] *)
Definition any {A : Type} (p : A -> bool) (l : list A) : bool := existsb p l.

End Py.

Open Scope list_scope.

(** ** Exceptions, collaborator calls and the monad that threads them *)

Module Effects.

Inductive Exc :=
| QueryError (msg : string)
| ValueError (msg : string)
| IndexError
| ZeroDivisionError
| OverflowError
| CollaboratorError (msg : string).

(** Calls that leave the two modules, in the order they are made. A pooled
    [executor.map] is one event: the order in which its workers run is not
    the program's to choose. *)
Inductive Call :=
| SongFromUrl (u : string)
| SongFromSearchTerm (term : string)
| PlaylistGetUrls (u : string)
| AlbumGetUrls (u : string)
| ArtistGetAlbums (u : string)
| SavedGetUrls
| OpenManifest (path : string)
| PlaylistBasicList (u : string)
| AlbumBasicList (u : string)
| ArtistBasicList (u : string)
| SavedBasicList
| PoolMap (threads : Z) (us : list string)
| YouTubeSearch (term : string).

Inductive outcome (A : Type) :=
| Returns (a : A)
| Raises (e : Exc).
Arguments Returns {A} a.
Arguments Raises {A} e.

(** A computation: the calls made so far and how it ended. *)
Definition M (A : Type) : Type := (list Call * outcome A)%type.

Definition ret {A} (a : A) : M A := ([], Returns a).

Definition raise {A} (e : Exc) : M A := ([], Raises e).

Definition bind {A B} (m : M A) (k : A -> M B) : M B :=
  match m with
  | (t, Returns a) => let (t', r) := k a in (t ++ t', r)
  | (t, Raises e) => (t, Raises e)
  end.

(** A step that calls nothing: it returns or raises. *)
Definition lift {A} (r : outcome A) : M A := ([], r).

(** A logged call to a collaborator whose answer is [r]. *)
Definition call {A} (c : Call) (r : outcome A) : M A := ([c], r).

Definition trace {A} (m : M A) : list Call := fst m.
Definition result {A} (m : M A) : outcome A := snd m.

(** [for x in xs: acc = body(x, acc)] *)
Fixpoint for_each {A S} (body : A -> S -> M S) (xs : list A) (acc : S) : M S :=
  match xs with
  | [] => ret acc
  | x :: rest => bind (body x acc) (for_each body rest)
  end.

(** The results of [f] over [xs] in the order of [xs]; the first failure in
    that order is the one raised. *)
Fixpoint in_order {A B} (f : A -> outcome B) (xs : list A) : outcome (list B) :=
  match xs with
  | [] => Returns []
  | x :: rest =>
      match f x with
      | Raises e => Raises e
      | Returns b =>
          match in_order f rest with
          | Raises e => Raises e
          | Returns bs => Returns (b :: bs)
          end
      end
  end.

(** The same calls, the value mapped when there is one. *)
Definition map_result {A B : Type} (f : A -> B) (m : M A) : M B :=
  (trace m,
   match result m with
   | Returns a => Returns (f a)
   | Raises e => Raises e
   end).

End Effects.
Import Effects.

Notation "x <- m ;; k" := (bind m (fun x => k))
  (at level 61, m at next level, right associativity).
Notation "' pat <- m ;; k" := (bind m (fun x => match x with pat => k end))
  (at level 61, pat pattern, m at next level, right associativity).

(** ** Python numbers

    [int] is [Z]; [float] is binary64, with the operations of the primitive
    floats (round to nearest, ties to even). The functions below are the
    arithmetic of [int] and [float] operands as CPython carries it out. *)

Module PyNum.

Import Floats.SpecFloat Floats.FloatOps.

Inductive pynum :=
| PyInt (z : Z)
| PyFloat (f : PrimFloat.float).

Definition and_then {A B : Type} (o : outcome A) (k : A -> outcome B)
  : outcome B :=
  match o with
  | Returns a => k a
  | Raises e => Raises e
  end.

(** [float(z)]: the nearest float, ties to even; an [int] beyond the range
    of the floats raises. *)
Definition int_to_double (z : Z) : outcome PrimFloat.float :=
  match binary_normalize prec emax z 0 false with
  | S754_infinity _ => Raises OverflowError
  | sf => Returns (SF2Prim sf)
  end.

(** The conversion of an operand of a float operation. *)
Definition to_double (x : pynum) : outcome PrimFloat.float :=
  match x with
  | PyInt z => int_to_double z
  | PyFloat f => Returns f
  end.

(** [x op y] where one operand at least is a float: both are converted,
    left first; the result is not checked for overflow. *)
Definition float_op (op : PrimFloat.float -> PrimFloat.float -> PrimFloat.float)
    (x y : pynum) : outcome pynum :=
  and_then (to_double x) (fun a =>
  and_then (to_double y) (fun b =>
  Returns (PyFloat (op a b)))).

(** [x + y], [x - y], [x * y]: exact on two [int]s. *)
Definition add (x y : pynum) : outcome pynum :=
  match x, y with
  | PyInt a, PyInt b => Returns (PyInt (a + b))
  | _, _ => float_op PrimFloat.add x y
  end.

Definition sub (x y : pynum) : outcome pynum :=
  match x, y with
  | PyInt a, PyInt b => Returns (PyInt (a - b))
  | _, _ => float_op PrimFloat.sub x y
  end.

Definition mul (x y : pynum) : outcome pynum :=
  match x, y with
  | PyInt a, PyInt b => Returns (PyInt (a * b))
  | _, _ => float_op PrimFloat.mul x y
  end.

(** [a / b] on two [int]s: the float nearest to the exact quotient (ties to
    even), computed from a quotient of 56 bits or more whose last bit records
    whether the division left a remainder. A zero quotient takes the sign of
    the operands; a quotient beyond the range of the floats raises. *)
Definition int_truediv (a b : Z) : outcome PrimFloat.float :=
  if (b =? 0)%Z then Raises ZeroDivisionError
  else
    let negate := xorb (a <? 0)%Z (b <? 0)%Z in
    let n := Z.abs a in
    let d := Z.abs b in
    let k := Z.max 0 (56 + Z.log2 d - Z.log2 n) in
    let q := (n * 2 ^ k / d)%Z in
    let r := ((n * 2 ^ k) mod d)%Z in
    let m := (2 * q + (if (r =? 0)%Z then 0 else 1))%Z in
    match binary_normalize prec emax m (- (k + 1)) false with
    | S754_infinity _ => Raises OverflowError
    | sf => Returns (if negate then PrimFloat.opp (SF2Prim sf) else SF2Prim sf)
    end.

(** [x / y]: true division. With a float operand both are converted, then a
    zero divisor (of either sign) raises. *)
Definition truediv (x y : pynum) : outcome pynum :=
  match x, y with
  | PyInt a, PyInt b =>
      and_then (int_truediv a b) (fun f => Returns (PyFloat f))
  | _, _ =>
      and_then (to_double x) (fun a =>
      and_then (to_double y) (fun b =>
      if PrimFloat.eqb b PrimFloat.zero then Raises ZeroDivisionError
      else Returns (PyFloat (PrimFloat.div a b))))
  end.

(** [x ** 2]. Exact on an [int]. On a float, [float.__pow__] answers the
    special cases itself (NaN, infinities, zeros, plus and minus one) and
    otherwise calls C's [pow] on the absolute value; [c_pow] is that call
    for the exponent 2 together with the check of its error code, which
    reports an overflow as [OverflowError]. *)
Definition square (c_pow : PrimFloat.float -> outcome PrimFloat.float)
    (x : pynum) : outcome pynum :=
  match x with
  | PyInt z => Returns (PyInt (z * z))
  | PyFloat f =>
      if PrimFloat.is_nan f then Returns (PyFloat f)
      else if PrimFloat.is_infinity f then Returns (PyFloat PrimFloat.infinity)
      else if PrimFloat.eqb f PrimFloat.zero then Returns (PyFloat PrimFloat.zero)
      else if PrimFloat.eqb (PrimFloat.abs f) PrimFloat.one
           then Returns (PyFloat PrimFloat.one)
      else and_then (c_pow (PrimFloat.abs f)) (fun v => Returns (PyFloat v))
  end.

(** [x < c] for an [int] constant [c] that is a float as it stands (below
    2^53 in absolute value): Python compares the two values exactly; a NaN is
    below nothing. *)
Definition lt_small (x : pynum) (c : Z) : bool :=
  match x with
  | PyInt z => (z <? c)%Z
  | PyFloat f => PrimFloat.ltb f (SF2Prim (binary_normalize prec emax c 0 false))
  end.

(** The value of a number as a rational. The infinities stand beyond every
    float; a NaN has no value and is given zero. *)
Definition value (x : pynum) : Q :=
  match x with
  | PyInt z => inject_Z z
  | PyFloat f =>
      match Prim2SF f with
      | S754_finite s m e =>
          (if s then - inject_Z (Zpos m) else inject_Z (Zpos m)) * 2 ^ e
      | S754_infinity s => if s then - (2 ^ 1024) else 2 ^ 1024
      | _ => 0
      end
  end.

End PyNum.

Declare Scope pynum_scope.
Delimit Scope pynum_scope with py.
Bind Scope pynum_scope with PyNum.pynum.

(** A numeral is the [int] of that value. *)
Definition pynum_of_int (n : Number.int) : PyNum.pynum :=
  PyNum.PyInt (Z.of_num_int n).

Definition pynum_to_int (x : PyNum.pynum) : option Number.int :=
  match x with
  | PyNum.PyInt z => Some (Z.to_num_int z)
  | PyNum.PyFloat _ => None
  end.

Number Notation PyNum.pynum pynum_of_int pynum_to_int : pynum_scope.

(** Scores are ordered by their values. *)
Coercion PyNum.value : PyNum.pynum >-> Q.

(** ** Data model *)

Module Types.

(** Modelled from the spec: the class [Song] of [spotdl.types] is not among
    the sources; its attributes are those of the data model (name, artists,
    duration in seconds, optional ISRC, url, optional pre-pinned
    download url, optional list name and position). *)
Record Song := mkSong {
  name : string;
  artists : list string;
  duration : PyNum.pynum;
  isrc : option string;
  url : string;
  download_url : option string;
  list_name : option string;
  list_position : option nat
}.

(** Modelled from the spec: [Song(url=u)], a reference-only Song ("created
    empty by the Dispatcher when only a URL is known"). *)
Definition Song_of_url (u : string) : Song :=
  mkSong "" [] 0 None u None None None.

(** Modelled from the spec: [Song.from_dict({**s.json, "download_url": a})],
    the record [s] with its download url replaced by [a]. *)
Definition Song_with_download_url (s : Song) (a : string) : Song :=
  mkSong (name s) (artists s) (duration s) (isrc s) (url s) (Some a)
         (list_name s) (list_position s).

(** Modelled from the spec:
    [Song.from_dict({"url": u, "download_url": a})]. *)
Definition Song_of_pair (u a : string) : Song :=
  Song_with_download_url (Song_of_url u) a.

(** Modelled from the spec: the list-type tag of a [SongList]. *)
Inductive ListKind := PlaylistKind | AlbumKind | ArtistKind | SavedKind.

(** Modelled from the spec: [SongList] of [spotdl.types.song], a named,
    ordered sequence of member track URLs. *)
Record SongList := mkSongList {
  sl_name : string;
  sl_kind : ListKind;
  urls : list string
}.

(** A search result of pytube, as the provider reads it: the video id and
    the watch url are tested against [None] by the code. *)
Record PyTube := mkPyTube {
  video_id : option string;
  title : string;
  length : PyNum.pynum;
  watch_url : option string
}.

End Types.
Import Types.

(** ** [spotdl/utils/query.py] *)

Module Query.

(** The collaborators of the dispatcher: the metadata provider, the
    collection fetchers and the manifest reader. Each answers with a value
    or raises. *)
Record Collaborators := mkCollaborators {
  Song_from_url : string -> outcome Song;
  Song_from_search_term : string -> outcome Song;
  Playlist_get_urls : string -> outcome (list string);
  Album_get_urls : string -> outcome (list string);
  Artist_get_albums : string -> outcome (list string);
  Saved_get_urls : outcome (list string);
  (* [open(path)], [json.load] and [Song.from_dict] on every record *)
  load_manifest : string -> outcome (list Song);
  Playlist_create_basic_list : string -> outcome SongList;
  Album_create_basic_list : string -> outcome SongList;
  Artist_create_basic_list : string -> outcome SongList;
  Saved_create_basic_list : outcome SongList;
  create_empty_song : string -> SongList -> Song
}.

Definition format_message : string :=
  "Incorrect format used, please use YouTubeURL|SpotifyURL".

(** The test of the first branch, lines 21-27 and 83-89. As in Python, [&&]
    binds tighter than [||]. *)
Definition is_paired (request : string) : bool :=
  Py.str_in "youtube.com/watch?v=" request
  || Py.str_in "youtu.be/" request
  && Py.str_in "open.spotify.com" request
  && Py.str_in "track" request
  && Py.str_in "|" request.

(** The test that raises, lines 29-34 and 91-96. [split_urls[1]] is only read
    when the list has two elements or more. *)
Definition bad_format (split_urls : list string) : bool :=
  (List.length split_urls <=? 1)%nat
  || negb (Py.str_in "youtube" (nth 0 split_urls ""%string))
  && negb (Py.str_in "youtu.be" (nth 0 split_urls ""%string))
  || negb (Py.str_in "spotify" (nth 1 split_urls ""%string)).

Definition is_track (request : string) : bool :=
  Py.str_in "open.spotify.com" request && Py.str_in "track" request.
Definition is_playlist (request : string) : bool :=
  Py.str_in "open.spotify.com" request && Py.str_in "playlist" request.
Definition is_album (request : string) : bool :=
  Py.str_in "open.spotify.com" request && Py.str_in "album" request.
Definition is_artist (request : string) : bool :=
  Py.str_in "open.spotify.com" request && Py.str_in "artist" request.

Section Dispatcher.

Variable W : Collaborators.

(** State of the loop of [parse_query]: [urls] and [songs]. *)
Definition pq_state : Type := (list string * list Song)%type.

(** Body of the loop over an artist's albums, line 55. *)
Definition extend_urls (album_url : string) (acc : list string)
  : M (list string) :=
  us <- call (AlbumGetUrls album_url) (Album_get_urls W album_url) ;;
  ret (acc ++ us).

(** Body of the loop of [parse_query], lines 20-64. *)
Definition parse_step (request : string) (st : pq_state) : M pq_state :=
  let '(urls, songs) := st in
  if is_paired request then
    let split_urls := Py.split "|" request in
    if bad_format split_urls then raise (QueryError format_message)
    else
      s <- call (SongFromUrl (nth 1 split_urls ""%string))
                (Song_from_url W (nth 1 split_urls ""%string)) ;;
      ret (urls, songs ++ [Song_with_download_url s (nth 0 split_urls ""%string)])
  else if is_track request then
    ret (urls ++ [request], songs)
  else if is_playlist request then
    us <- call (PlaylistGetUrls request) (Playlist_get_urls W request) ;;
    ret (urls ++ us, songs)
  else if is_album request then
    us <- call (AlbumGetUrls request) (Album_get_urls W request) ;;
    ret (urls ++ us, songs)
  else if is_artist request then
    albums <- call (ArtistGetAlbums request) (Artist_get_albums W request) ;;
    urls' <- for_each extend_urls albums urls ;;
    ret (urls', songs)
  else if String.eqb request "saved" then
    us <- call SavedGetUrls (Saved_get_urls W) ;;
    ret (urls ++ us, songs)
  else if Py.endswith ".spotdl" request then
    tracks <- call (OpenManifest request) (load_manifest W request) ;;
    ret (urls, songs ++ tracks)
  else
    s <- call (SongFromSearchTerm request) (Song_from_search_term W request) ;;
    ret (urls, songs ++ [s]).

(** [ThreadPoolExecutor(max_workers=threads)] and [executor.map(Song.from_url,
    urls)], lines 66-68: the constructor refuses a pool without workers; the
    iterator yields the results in the order of [urls] and raises at the
    first one that failed. *)
Definition executor_map (threads : Z) (urls : list string) : M (list Song) :=
  if (threads <=? 0)%Z then
    raise (ValueError "max_workers must be greater than 0")
  else
    call (PoolMap threads urls) (in_order (Song_from_url W) urls).

Definition parse_query (query : list string) (threads : Z) : M (list Song) :=
  '(urls, songs) <- for_each parse_step query ([], []) ;;
  fetched <- executor_map threads urls ;;
  ret (songs ++ fetched).

(** State of the loop of [get_simple_songs]: [songs] and [lists]. *)
Definition gs_state : Type := (list Song * list SongList)%type.

(** Body of the loop of [get_simple_songs], lines 82-125. *)
Definition simple_step (request : string) (st : gs_state) : M gs_state :=
  let '(songs, lists) := st in
  if is_paired request then
    let split_urls := Py.split "|" request in
    if bad_format split_urls then raise (QueryError format_message)
    else
      ret (songs ++ [Song_of_pair (nth 1 split_urls ""%string)
                                  (nth 0 split_urls ""%string)], lists)
  else if is_track request then
    ret (songs ++ [Song_of_url request], lists)
  else if is_playlist request then
    l <- call (PlaylistBasicList request) (Playlist_create_basic_list W request) ;;
    ret (songs, lists ++ [l])
  else if is_album request then
    l <- call (AlbumBasicList request) (Album_create_basic_list W request) ;;
    ret (songs, lists ++ [l])
  else if is_artist request then
    l <- call (ArtistBasicList request) (Artist_create_basic_list W request) ;;
    ret (songs, lists ++ [l])
  else if String.eqb request "saved" then
    l <- call SavedBasicList (Saved_create_basic_list W) ;;
    ret (songs, lists ++ [l])
  else if Py.endswith ".spotdl" request then
    tracks <- call (OpenManifest request) (load_manifest W request) ;;
    ret (songs ++ tracks, lists)
  else
    s <- call (SongFromSearchTerm request) (Song_from_search_term W request) ;;
    ret (songs ++ [s], lists).

Definition get_simple_songs (query : list string) : M (list Song) :=
  '(songs, lists) <- for_each simple_step query ([], []) ;;
  ret (songs ++ flat_map
                  (fun song_list =>
                     map (fun u => create_empty_song W u song_list) (urls song_list))
                  lists).

End Dispatcher.

End Query.

(** ** [spotdl/providers/audio/youtube.py] *)

Module YouTube.

(** What the provider imports: the formatter ([slugify], [create_song_title],
    [create_search_query] with its last three arguments fixed to
    [False, None, True]), the similarity [match_percentage], [str.lower]
    and pytube's [Search(term).results]; and, below Python's [**], the C
    library's [pow] for the exponent 2 (see [PyNum.square]). *)
Record Helpers := mkHelpers {
  slugify : string -> string;
  create_song_title : string -> list string -> string;
  create_search_query : Song -> string -> string;
  match_percentage : string -> string -> PyNum.pynum;
  str_lower : string -> string;
  get_results : string -> outcome (option (list PyTube));
  c_pow_2 : PrimFloat.float -> outcome PrimFloat.float
}.

(** The attributes of [self] that [search] and [order_results] read. *)
Record Provider := mkProvider {
  search_query : option string;
  filter_results : bool
}.

(** A Python [dict] from watch url to score. It keeps the order in which
    keys were first inserted; assigning to a key already there replaces its
    value in place. *)
Definition dict : Type := list (option string * PyNum.pynum).

Definition key_eqb (a b : option string) : bool :=
  match a, b with
  | None, None => true
  | Some x, Some y => String.eqb x y
  | _, _ => false
  end.

Fixpoint dict_set (k : option string) (v : PyNum.pynum) (d : dict) : dict :=
  match d with
  | [] => [(k, v)]
  | (k', v') :: d' =>
      if key_eqb k k' then (k, v) :: d' else (k', v') :: dict_set k v d'
  end.

Fixpoint dict_get (k : option string) (d : dict) : option PyNum.pynum :=
  match d with
  | [] => None
  | (k', v') :: d' => if key_eqb k k' then Some v' else dict_get k d'
  end.

(** [sorted(items, key=lambda x: x[1], reverse=True)]: stable, so entries of
    equal score keep their order. The scores that the two modes store (the
    floats of [order_results], or the single [100] of the filter mode) are
    compared by Python as their values are; a NaN among several scores
    leaves the order that Python's sort produces unspecified, and is not
    modelled. *)
Fixpoint insert_desc (x : option string * PyNum.pynum) (l : dict) : dict :=
  match l with
  | [] => [x]
  | y :: l' =>
      if Qle_bool (PyNum.value (snd y)) (PyNum.value (snd x))
      then x :: y :: l' else y :: insert_desc x l'
  end.

Definition sorted_desc (items : dict) : dict :=
  fold_right insert_desc [] items.

Section Provider.

Variable H : Helpers.
Variable self : Provider.

Definition template : string :=
  match search_query self with
  | Some s => s
  | None => ""%string
  end.

(** Lines 153-158. *)
Definition common_word (slug_song_name slug_result_name : string) : bool :=
  let sentence_words := Py.split " " (Py.replace "-" " " slug_song_name) in
  Py.any (fun word => negb (String.eqb word "") && Py.str_in word slug_result_name)
         sentence_words.

(** Lines 165-172: [artist_match_number] starts at [0.0] and takes the
    similarity of every artist in turn. *)
Definition artist_match_number (song : Song) (slug_result_name : string)
  : outcome PyNum.pynum :=
  fold_left
    (fun acc artist =>
       PyNum.and_then acc (fun artist_match_number =>
       PyNum.add artist_match_number
                 (match_percentage H (slugify H artist) slug_result_name)))
    (artists song) (Returns (PyNum.PyFloat PrimFloat.zero)).

(** Lines 187-189:
    [100 - (result.length - song.duration**2) / song.duration * 100]. *)
Definition time_match (song : Song) (result : PyTube) : outcome PyNum.pynum :=
  PyNum.and_then (PyNum.square (c_pow_2 H) (duration song)) (fun squared =>
  PyNum.and_then (PyNum.sub (length result) squared) (fun difference =>
  PyNum.and_then (PyNum.truediv difference (duration song)) (fun quotient =>
  PyNum.and_then (PyNum.mul quotient 100) (fun product =>
  PyNum.sub 100 product)))).

(** Body of the loop of [order_results], lines 146-194. The arithmetic is
    Python's: a division by zero raises (an empty artist list, a zero
    duration), and so does a number out of the range of the floats. *)
Definition order_step (song : Song) (slug_song_name slug_song_title : string)
    (result : PyTube) (links_with_match_value : dict) : M dict :=
  match video_id result with
  | None => ret links_with_match_value
  | Some _ =>
      let slug_result_name := slugify H (title result) in
      if negb (common_word slug_song_name slug_result_name) then
        ret links_with_match_value
      else
        artist_match_number <- lift (artist_match_number song slug_result_name) ;;
        artist_match <-
          lift (PyNum.truediv artist_match_number
                  (PyNum.PyInt (Z.of_nat (List.length (artists song))))) ;;
        if PyNum.lt_small artist_match 70 then ret links_with_match_value
        else
          let name_match := match_percentage H slug_result_name slug_song_title in
          if PyNum.lt_small name_match 50 then ret links_with_match_value
          else
            time_match <- lift (time_match song result) ;;
            sum <- lift (PyNum.add artist_match name_match) ;;
            sum <- lift (PyNum.add sum time_match) ;;
            average_match <- lift (PyNum.truediv sum 3) ;;
            ret (dict_set (watch_url result) average_match links_with_match_value)
  end.

Definition slug_name (song : Song) : string := slugify H (name song).

Definition slug_title (song : Song) : string :=
  slugify H
    (if negb (Py.truthy (search_query self))
     then create_song_title H (name song) (artists song)
     else create_search_query H song template).

Definition order_results (results : list PyTube) (song : Song) : M dict :=
  for_each (order_step song (slug_name song) (slug_title song)) results [].

(** Lines 100-121 of [search], from the call with the search term on. *)
Definition search_term (song : Song) (term : string) : M (option string) :=
  results <- call (YouTubeSearch term) (get_results H term) ;;
  match results with
  | None => ret None
  | Some results =>
      ordered_results <-
        (if filter_results self then
           match results with
           | [] => raise IndexError
           | first :: _ => ret [(watch_url first, 100%py)]
           end
         else order_results results song) ;;
      if (List.length ordered_results =? 0)%nat then ret None
      else
        match sorted_desc ordered_results with
        | [] => raise IndexError
        | first :: _ => ret (fst first)
        end
  end.

Definition text_search (song : Song) : M (option string) :=
  search_term song
    (str_lower H (create_song_title H (name song) (artists song))).

(** The term that [search] passes on when it does not return early: lines
    81-83 and 95. *)
Definition chosen_term (song : Song) : string :=
  if Py.truthy (search_query self)
  then create_search_query H song template
  else str_lower H (create_song_title H (name song) (artists song)).

(** [search], lines 80-121. [if song.isrc] is false for [None] and for the
    empty string. *)
Definition search (song : Song) : M (option string) :=
  if Py.truthy (search_query self) then
    search_term song (create_search_query H song template)
  else
    match isrc song with
    | Some i =>
        if String.eqb i "" then text_search song
        else
          isrc_results <- call (YouTubeSearch i) (get_results H i) ;;
          match isrc_results with
          | Some [isrc_result] =>
              match watch_url isrc_result with
              | Some w => ret (Some w)
              | None => text_search song
              end
          | _ => text_search song
          end
    | None => text_search song
    end.

End Provider.

End YouTube.

(** ** The progress hooks of the provider

    [YouTube.add_progress_hook], lines 198-206. The class [AudioProvider] is
    not among the sources: what [super().add_progress_hook] does to
    [self.progress_hooks] is a parameter. The hooks that yt-dlp holds are a
    list to which its [add_progress_hook] appends. *)

Module Hooks.

Section Hooks.

Variable Hook : Type.
Variable AudioProvider_add_progress_hook : list Hook -> Hook -> list Hook.

(** The two lists the method touches: [self.progress_hooks] and the hooks
    registered with [self.audio_handler]. *)
Record state := mkState {
  progress_hooks : list Hook;
  handler_hooks : list Hook
}.

Definition fresh : state := mkState [] [].

Definition add_progress_hook (self : state) (hook : Hook) : state :=
  let hooks := AudioProvider_add_progress_hook (progress_hooks self) hook in
  mkState hooks (handler_hooks self ++ hooks).

(** Hooks added one after the other. *)
Definition add_all (self : state) (hooks : list Hook) : state :=
  fold_left add_progress_hook hooks self.

End Hooks.

End Hooks.

(** ** Kinds of calls *)

Module Calls.

Definition is_pool (c : Call) : bool :=
  match c with
  | PoolMap _ _ => true
  | _ => false
  end.

Definition is_fetch (c : Call) : bool :=
  match c with
  | SongFromUrl _ => true
  | _ => false
  end.

Definition is_search (c : Call) : bool :=
  match c with
  | YouTubeSearch _ => true
  | _ => false
  end.

(** The trace that the batch of [parse_query] adds after the loop. *)
Definition pool_events (threads : Z) (loop : outcome Query.pq_state)
  : list Call :=
  match loop with
  | Returns (urls, _) =>
      if (threads <=? 0)%Z then [] else [PoolMap threads urls]
  | Raises _ => []
  end.

(** The Songs that [get_simple_songs] makes of the collected lists. *)
Definition members (W : Query.Collaborators) (lists : list SongList)
  : list Song :=
  flat_map (fun l => map (fun u => Query.create_empty_song W u l) (urls l))
           lists.

End Calls.

(** ** The first two tests of [order_results] on a candidate *)

Module Gates.

Section Gates.

Variable H : YouTube.Helpers.
Variable song : Song.

(** Lines 148 and 156-161: the candidate has a video id and its slugified
    title shares a word with the song's slugified name. *)
Definition has_id_and_word (r : PyTube) : bool :=
  match video_id r with
  | Some _ =>
      YouTube.common_word (YouTube.slug_name H song)
                          (YouTube.slugify H (title r))
  | None => false
  end.

End Gates.

End Gates.

(** ** The specification's words

    Predicates that follow the text of the specification, to be compared
    with what the code computes. *)

Module Spec.

(** A YouTube-shaped url: it carries one of the two YouTube markers and, being
    the part before the separator, no separator of its own. *)
Definition youtube_shaped (a : string) : Prop :=
  (Py.str_in "youtube.com/watch?v=" a = true \/ Py.str_in "youtu.be/" a = true)
  /\ Py.str_in "|" a = false.

(** A Spotify-track-shaped url. *)
Definition spotify_track_shaped (b : string) : Prop :=
  Py.str_in "open.spotify.com" b = true
  /\ Py.str_in "track" b = true
  /\ Py.str_in "|" b = false.

(** The four markers of rule 1 as the specification reads them: a YouTube
    marker, the Spotify host, [track] and the separator. *)
Definition paired_reference (request : string) : Prop :=
  (Py.str_in "youtube.com/watch?v=" request = true
   \/ Py.str_in "youtu.be/" request = true)
  /\ Py.str_in "open.spotify.com" request = true
  /\ Py.str_in "track" request = true
  /\ Py.str_in "|" request = true.

(** A malformed combined token: fewer than two parts, or no YouTube host
    marker in part 0, or no Spotify host marker in part 1. *)
Definition malformed (request : string) : Prop :=
  let parts := Py.split "|" request in
  (List.length parts < 2)%nat
  \/ (Py.str_in "youtube" (nth 0 parts ""%string) = false
      /\ Py.str_in "youtu.be" (nth 0 parts ""%string) = false)
  \/ Py.str_in "spotify" (nth 1 parts ""%string) = false.

(** "Results are appended in token-processing order": the Songs returned for
    a query are those of its first token, then those of its second, ... *)
Definition token_order (W : Query.Collaborators) (query : list string)
    (threads : Z) : Prop :=
  forall songs,
    result (Query.parse_query W query threads) = Returns songs ->
    exists parts,
      Forall2 (fun tok part =>
                 result (Query.parse_query W [tok] threads) = Returns part)
              query parts
      /\ songs = concat parts.

(** "A failure for a single member does not abort the batch": whenever the
    tokens are dispatched, Songs are returned, among them the Song of every
    submitted url whose fetch succeeds. *)
Definition isolates_failures (W : Query.Collaborators) (query : list string)
    (threads : Z) : Prop :=
  forall urls direct,
    result (for_each (Query.parse_step W) query ([], [])) = Returns (urls, direct) ->
    exists songs,
      result (Query.parse_query W query threads) = Returns songs
      /\ forall u s, In u urls -> Query.Song_from_url W u = Returns s -> In s songs.

(** "The candidate's slugified title contains none of the non-empty
    whitespace-separated words of the song's slugified name." *)
Definition shares_no_word (slug_song_name slug_result_name : string) : Prop :=
  forall word,
    In word (Py.split " " (Py.replace "-" " " slug_song_name)) ->
    word <> ""%string ->
    Py.str_in word slug_result_name = false.

(** The candidates of a provider answer; none when there is no answer. *)
Definition candidates (answer : option (list PyTube)) : list PyTube :=
  match answer with
  | Some l => l
  | None => []
  end.

(** "Computed in exact arithmetic": the mean of the artist score, the name
    score and the duration score over the rationals. *)
Definition exact_mean (artist name length duration : Q) : Q :=
  (artist + name + (100 - ((length - duration ^ 2) / duration) * 100)) / 3.

(** The similarities of the artists added to a running total one after the
    other, in the order of the artist list, in Python's arithmetic. *)
Fixpoint running_total (similarity : string -> PyNum.pynum)
    (artists : list string) (total : PyNum.pynum) : outcome PyNum.pynum :=
  match artists with
  | [] => Returns total
  | artist :: rest =>
      PyNum.and_then (PyNum.add total (similarity artist))
                     (running_total similarity rest)
  end.

End Spec.

(** ** Test doubles

    A metadata provider and a search provider with fixed answers, to run the
    two modules on concrete inputs. *)

Module Fixtures.

Definition song_named (n u : string) : Song :=
  mkSong n ["a"%string] 200 None u None None None.

(** Fetching a url that contains [missing] fails; every other fetch
    succeeds. *)
Definition spotify : Query.Collaborators :=
  Query.mkCollaborators
    (fun u => if Py.str_in "missing" u
              then Raises (CollaboratorError "track not found")
              else Returns (song_named "fetched" u))
    (fun term => Returns (song_named term ""))
    (fun u => Returns [(u ++ "#1")%string; (u ++ "#2")%string])
    (fun u => Returns [(u ++ "#1")%string])
    (fun u => Returns [(u ++ "/album")%string])
    (Returns [])
    (fun path => Returns [])
    (fun u => Returns (mkSongList u PlaylistKind []))
    (fun u => Returns (mkSongList u AlbumKind []))
    (fun u => Returns (mkSongList u ArtistKind []))
    (Returns (mkSongList "saved" SavedKind []))
    (fun u l => mkSong "" [] 0 None u None (Some (sl_name l)) None).

Definition track_a : string := "https://open.spotify.com/track/a".
Definition track_b : string := "https://open.spotify.com/track/b".
Definition track_missing : string := "https://open.spotify.com/track/missing".
Definition video_x : string := "https://youtube.com/watch?v=xyz".

(** A YouTube url on its own: no separator, no Spotify part. *)
Definition bare_youtube_token : string := "https://www.youtube.com/watch?v=abc".

(** The swapped token of the spec's example: Spotify first, YouTube second. *)
Definition swapped_token : string :=
  "https://open.spotify.com/track/abc|https://youtube.com/watch?v=xyz".

Definition candidate (t : string) (len : PyNum.pynum) (w : string) : PyTube :=
  mkPyTube (Some w) t len (Some w).

(** A C library whose [pow] gives the correctly rounded square. *)
Definition rounded_square (f : PrimFloat.float) : outcome PrimFloat.float :=
  if PrimFloat.is_infinity (f * f)%float then Raises OverflowError
  else Returns (f * f)%float.

(** Helpers with a crude similarity: 100.0 when one string contains the
    other, 0.0 otherwise. *)
Definition helpers (answers : string -> outcome (option (list PyTube)))
  : YouTube.Helpers :=
  YouTube.mkHelpers
    (fun s => s)
    (fun n arts => (String.concat ", " arts ++ " - " ++ n)%string)
    (fun song tpl => tpl)
    (fun a b => if Py.str_in a b || Py.str_in b a
                then PyNum.PyFloat 100%float else PyNum.PyFloat 0%float)
    (fun s => s)
    answers
    rounded_square.

Definition isrc_code : string := "USRC17607839".

Definition answers (term : string) : outcome (option (list PyTube)) :=
  if String.eqb term isrc_code then
    Returns (Some [candidate "zzz" 10 "https://youtube.com/watch?v=isrc"])
  else if String.eqb term "a - test" then
    Returns (Some [candidate "a - test" 200 "https://youtube.com/watch?v=1";
                   candidate "unrelated" 200 "https://youtube.com/watch?v=2"])
  else if String.eqb term "a - nothing" then Returns (Some [])
  else Returns None.

Definition test_song : Song :=
  mkSong "test" ["a"%string] 200 None "https://open.spotify.com/track/t"
         None None None.

Definition short_song : Song :=
  mkSong "test" ["a"%string] 1 None "https://open.spotify.com/track/t"
         None None None.

Definition nothing_song : Song :=
  mkSong "nothing" ["a"%string] 200 None "https://open.spotify.com/track/n"
         None None None.

Definition isrc_song : Song :=
  mkSong "test" ["a"%string] 200 (Some isrc_code)
         "https://open.spotify.com/track/t" None None None.

Definition scoring : YouTube.Provider := YouTube.mkProvider None false.
Definition filtering : YouTube.Provider := YouTube.mkProvider None true.

(** A playlist url whose identifier happens to contain [track]. *)
Definition playlist_with_track : string :=
  "https://open.spotify.com/playlist/37i9dQZF1DXtrackmix".

Definition artist_token : string := "https://open.spotify.com/artist/xyz".

(** Two tokens with the first YouTube marker and a second part that is no
    track url; the second carries a third part. *)
Definition lax_token : string := "youtube.com/watch?v=x|spotify".
Definition three_part_token : string :=
  "youtube.com/watch?v=x|spotify.example/y|ignored".

(** A provider with a custom search template. *)
Definition templated : YouTube.Provider :=
  YouTube.mkProvider (Some "a - test"%string) false.

Definition no_artist_song : Song :=
  mkSong "test" [] 200 None "https://open.spotify.com/track/t" None None None.

Definition zero_duration_song : Song :=
  mkSong "test" ["a"%string] 0 None "https://open.spotify.com/track/t"
         None None None.

(** An ISRC that the provider answers with one candidate without watch
    url. *)
Definition dead_isrc : string := "XXDEAD000000".

Definition answers_with_dead_isrc (term : string)
  : outcome (option (list PyTube)) :=
  if String.eqb term dead_isrc then
    Returns (Some [mkPyTube (Some "id"%string) "test" 200 None])
  else answers term.

Definition dead_isrc_song : Song :=
  mkSong "test" ["a"%string] 200 (Some dead_isrc)
         "https://open.spotify.com/track/t" None None None.

(** The provider above, which also answers the title of the song without
    artists. *)
Definition answers_no_artist (term : string)
  : outcome (option (list PyTube)) :=
  if String.eqb term " - test" then
    Returns (Some [candidate "a - test" 200 "https://youtube.com/watch?v=1";
                   candidate "unrelated" 200 "https://youtube.com/watch?v=2"])
  else answers term.

(** A candidate without video id. pytube builds the watch url from the id,
    so the url is there all the same. *)
Definition without_id (t : string) (len : PyNum.pynum) : PyTube :=
  mkPyTube None t len (Some "https://youtube.com/watch?v=None"%string).

Definition noid_isrc : string := "USNOID000000".

(** A provider whose answers hold a candidate without video id: alone for
    the ISRC, before a candidate with an id for the title. *)
Definition answers_without_id (term : string)
  : outcome (option (list PyTube)) :=
  if String.eqb term noid_isrc then
    Returns (Some [without_id "a - test" 200])
  else if String.eqb term "a - test" then
    Returns (Some [without_id "a - test" 200;
                   candidate "a - test" 200 "https://youtube.com/watch?v=1"])
  else Returns None.

Definition noid_song : Song :=
  mkSong "test" ["a"%string] 200 (Some noid_isrc)
         "https://open.spotify.com/track/t" None None None.

(** Helpers whose similarity of the artists [x], [y] and [z] with any title
    is 41.666666666666664, 75.0 and 93.33333333333333, and 100.0 for any
    other pair of strings. *)
Definition boundary_helpers : YouTube.Helpers :=
  YouTube.mkHelpers
    (fun s => s)
    (fun n arts => (String.concat ", " arts ++ " - " ++ n)%string)
    (fun song tpl => tpl)
    (fun a b => if String.eqb a "x" then PyNum.PyFloat 41.666666666666664%float
                else if String.eqb a "y" then PyNum.PyFloat 75%float
                else if String.eqb a "z" then PyNum.PyFloat 93.33333333333333%float
                else PyNum.PyFloat 100%float)
    (fun s => s)
    answers
    rounded_square.

Definition boundary_song : Song :=
  mkSong "test" ["x"%string; "y"%string; "z"%string] 200 None
         "https://open.spotify.com/track/t" None None None.

(** A song whose duration is the float 1e200: its square is out of the
    range of the floats. *)
Definition endless_song : Song :=
  mkSong "test" ["a"%string] (PyNum.PyFloat 1e200%float) None
         "https://open.spotify.com/track/t" None None None.

End Fixtures.

(** * Properties

    ** Facts about the string built-ins *)

Section StringFacts.

Local Open Scope string_scope.

Lemma append_assoc (a b c : string) : (a ++ b) ++ c = a ++ (b ++ c).
Proof. induction a as [|x a IH]; simpl; [reflexivity | now rewrite IH]. Qed.

Lemma prefix_iff (p s : string) :
  prefix p s = true <-> exists post, s = p ++ post.
Proof.
  revert s; induction p as [|x p IH]; intros s; simpl.
  - split; [intros _; now exists s | intros _; now destruct s].
  - destruct s as [|y s]; simpl.
    + split; [discriminate | intros [post H]; discriminate].
    + destruct (ascii_dec x y) as [->|Hne].
      * rewrite IH. split; intros [post H]; exists post.
        -- now subst.
        -- now injection H.
      * split; [discriminate|]. intros [post H]. injection H as H1 _. congruence.
Qed.

Lemma str_in_nil (sub : string) : Py.str_in sub "" = prefix sub "".
Proof. simpl. now destruct sub. Qed.

Lemma str_in_cons (sub : string) (y : ascii) (s : string) :
  Py.str_in sub (String y s) = prefix sub (String y s) || Py.str_in sub s.
Proof.
  change (Py.str_in sub (String y s))
    with (if prefix sub (String y s) then true else Py.str_in sub s).
  now destruct (prefix sub (String y s)).
Qed.

Lemma str_in_iff (sub s : string) :
  Py.str_in sub s = true <-> exists pre post, s = pre ++ sub ++ post.
Proof.
  induction s as [|y s IH].
  - rewrite str_in_nil, prefix_iff. split.
    + intros [post H]. now exists "", post.
    + intros (pre & post & H). destruct pre; [now exists post | discriminate].
  - rewrite str_in_cons, orb_true_iff, prefix_iff, IH. split.
    + intros [[post H] | (pre & post & H)].
      * now exists "", post.
      * exists (String y pre), post. simpl. now rewrite H.
    + intros (pre & post & H). destruct pre as [|z pre]; simpl in H.
      * left. now exists post.
      * right. injection H as _ H. now exists pre, post.
Qed.

(** A substring of a substring is a substring. *)
Lemma str_in_trans (a b s : string) :
  Py.str_in a b = true -> Py.str_in b s = true -> Py.str_in a s = true.
Proof.
  rewrite !str_in_iff. intros (p1 & q1 & ->) (p2 & q2 & ->).
  exists (p2 ++ p1), (q1 ++ q2). now rewrite !append_assoc.
Qed.

Lemma str_in_app_l (a s t : string) :
  Py.str_in a s = true -> Py.str_in a (s ++ t) = true.
Proof.
  rewrite !str_in_iff. intros (p & q & ->).
  exists p, (q ++ t). now rewrite !append_assoc.
Qed.

Lemma str_in_app_r (a s t : string) :
  Py.str_in a t = true -> Py.str_in a (s ++ t) = true.
Proof.
  rewrite !str_in_iff. intros (p & q & ->).
  exists (s ++ p), q. now rewrite !append_assoc.
Qed.

Lemma str_in_cons_false (a : string) (y : ascii) (s : string) :
  Py.str_in a (String y s) = false -> Py.str_in a s = false.
Proof.
  rewrite str_in_cons. now destruct (prefix a (String y s)).
Qed.

Lemma str_in_head (c : ascii) (s : string) :
  Py.str_in (String c "") (String c s) = true.
Proof. apply str_in_iff. now exists "", s. Qed.

(** Splitting a string that has no separator gives the string itself. *)
Lemma split_absent (c : ascii) (s : string) :
  Py.str_in (String c "") s = false -> Py.split c s = [s].
Proof.
  induction s as [|y s IH]; intros H; [reflexivity|].
  simpl. destruct (Ascii.eqb y c) eqn:E.
  - apply Ascii.eqb_eq in E. subst y.
    rewrite (str_in_head c s) in H. discriminate.
  - rewrite (IH (str_in_cons_false _ _ _ H)). reflexivity.
Qed.

Lemma split_nonempty (c : ascii) (s : string) : Py.split c s <> [].
Proof.
  destruct s as [|y s]; simpl; [discriminate|].
  destruct (Ascii.eqb y c); [discriminate|].
  destruct (Py.split c s); discriminate.
Qed.

(** Splitting [a ++ c ++ b] when [a] has no separator. *)
Lemma split_app (c : ascii) (a b : string) :
  Py.str_in (String c "") a = false ->
  Py.split c (a ++ String c b) = a :: Py.split c b.
Proof.
  induction a as [|y a IH]; intros H; simpl.
  - now rewrite Ascii.eqb_refl.
  - destruct (Ascii.eqb y c) eqn:E.
    + apply Ascii.eqb_eq in E. subst y.
      rewrite (str_in_head c a) in H. discriminate.
    + rewrite (IH (str_in_cons_false _ _ _ H)). reflexivity.
Qed.

End StringFacts.


(** ** Facts about the monad *)

Section MonadFacts.

Context {A B : Type}.

Lemma bind_ret_l (a : A) (k : A -> M B) : bind (ret a) k = k a.
Proof. unfold bind, ret. now destruct (k a). Qed.

Lemma bind_call_returns (c : Call) (a : A) (k : A -> M B) :
  bind (call c (Returns a)) k = (c :: trace (k a), result (k a)).
Proof. unfold bind, call, trace, result. now destruct (k a). Qed.

Lemma bind_call_raises (c : Call) (e : Exc) (k : A -> M B) :
  bind (call c (Raises e)) k = ([c], Raises e).
Proof. reflexivity. Qed.

Lemma result_bind_returns (m : M A) (k : A -> M B) (a : A) :
  result m = Returns a -> result (bind m k) = result (k a).
Proof.
  destruct m as [t r]; simpl; intros ->. unfold bind. now destruct (k a).
Qed.

Lemma trace_bind_returns (m : M A) (k : A -> M B) (a : A) :
  result m = Returns a -> trace (bind m k) = trace m ++ trace (k a).
Proof.
  destruct m as [t r]; simpl; intros ->. unfold bind. now destruct (k a).
Qed.

Lemma result_bind_raises (m : M A) (k : A -> M B) (e : Exc) :
  result m = Raises e -> result (bind m k) = Raises e.
Proof. destruct m as [t r]; simpl; now intros ->. Qed.

Lemma result_bind_inv (m : M A) (k : A -> M B) (b : B) :
  result (bind m k) = Returns b ->
  exists a, result m = Returns a /\ result (k a) = Returns b.
Proof.
  destruct m as [t [a|e]]; simpl; [|discriminate].
  intros Hb. exists a. split; [reflexivity|].
  unfold result. now destruct (k a).
Qed.

End MonadFacts.

Section LoopFacts.

Context {A S : Type}.
Variable body : A -> S -> M S.

Lemma for_each_cons_result (x : A) (xs : list A) (acc acc' : S) :
  result (body x acc) = Returns acc' ->
  result (for_each body (x :: xs) acc) = result (for_each body xs acc').
Proof. intros Hx. simpl. now apply result_bind_returns. Qed.

(** A loop over [pre ++ x :: post] whose prefix runs through and whose body
    raises at [x] raises. *)
Lemma for_each_raises_at (pre post : list A) (x : A) (acc acc' : S) (e : Exc) :
  result (for_each body pre acc) = Returns acc' ->
  result (body x acc') = Raises e ->
  result (for_each body (pre ++ x :: post) acc) = Raises e.
Proof.
  revert acc. induction pre as [|y pre IH]; intros acc Hpre Hx; simpl in *.
  - injection Hpre as ->. now apply result_bind_raises.
  - apply result_bind_inv in Hpre as (mid & Hy & Hrest).
    rewrite (result_bind_returns _ _ _ Hy). now apply IH.
Qed.

Lemma for_each_app_inv (l1 l2 : list A) (acc d : S) :
  result (for_each body (l1 ++ l2) acc) = Returns d ->
  exists mid,
    result (for_each body l1 acc) = Returns mid
    /\ result (for_each body l2 mid) = Returns d.
Proof.
  revert acc. induction l1 as [|x l1 IH]; intros acc Hrun.
  - exists acc. split; [reflexivity | exact Hrun].
  - cbn [app for_each] in Hrun.
    apply result_bind_inv in Hrun as (a & Hx & Hrest).
    destruct (IH a Hrest) as (mid & H1 & H2).
    exists mid. split; [|assumption].
    cbn [for_each]. now rewrite (result_bind_returns _ _ _ Hx).
Qed.

End LoopFacts.

Section OrderFacts.

Context {A B : Type}.
Variable f : A -> outcome B.

Lemma in_order_returns (xs : list A) (ys : list B) :
  in_order f xs = Returns ys -> Forall2 (fun x y => f x = Returns y) xs ys.
Proof.
  revert ys. induction xs as [|x xs IH]; intros ys; simpl.
  - intros [= <-]. constructor.
  - destruct (f x) as [b|e] eqn:Hx; [|discriminate].
    destruct (in_order f xs) as [bs|e]; [|discriminate].
    intros [= <-]. constructor; [assumption | now apply IH].
Qed.

Lemma in_order_of_Forall2 (xs : list A) (ys : list B) :
  Forall2 (fun x y => f x = Returns y) xs ys -> in_order f xs = Returns ys.
Proof.
  induction 1 as [|x y xs ys Hx _ IH]; simpl; [reflexivity|].
  now rewrite Hx, IH.
Qed.

Lemma in_order_first_failure (pre post : list A) (x : A) (e : Exc) :
  Forall (fun u => exists b, f u = Returns b) pre ->
  f x = Raises e ->
  in_order f (pre ++ x :: post) = Raises e.
Proof.
  intros Hpre Hx. induction Hpre as [|u pre [b Hu] _ IH]; simpl.
  - now rewrite Hx.
  - now rewrite Hu, IH.
Qed.

End OrderFacts.

(** ** The query dispatcher *)

Section QueryFacts.

Local Open Scope string_scope.

Import Query.

Variable W : Collaborators.

(** How the test of the first branch reads: the first marker alone, or the
    other four together. *)
Lemma is_paired_iff (request : string) :
  is_paired request = true <->
  Py.str_in "youtube.com/watch?v=" request = true
  \/ (Py.str_in "youtu.be/" request = true
      /\ Py.str_in "open.spotify.com" request = true
      /\ Py.str_in "track" request = true
      /\ Py.str_in "|" request = true).
Proof.
  unfold is_paired. rewrite orb_true_iff, !andb_true_iff. tauto.
Qed.

Lemma bad_format_iff (request : string) :
  bad_format (Py.split "|" request) = true <-> Spec.malformed request.
Proof.
  unfold bad_format, Spec.malformed. cbv zeta.
  set (parts := Py.split "|" request).
  rewrite !orb_true_iff, andb_true_iff, !negb_true_iff, Nat.leb_le.
  split.
  - intros [[Hl | Hy] | Hs];
      [left; lia | right; left; exact Hy | right; right; exact Hs].
  - intros [Hl | [Hy | Hs]];
      [left; left; lia | left; right; exact Hy | right; exact Hs].
Qed.

Lemma split_pair (a b : string) :
  Py.str_in "|" a = false -> Py.str_in "|" b = false ->
  Py.split "|" (a ++ "|" ++ b) = [a; b].
Proof.
  intros Ha Hb. change ("|" ++ b) with (String "|" b).
  rewrite (split_app _ _ _ Ha), (split_absent _ _ Hb). reflexivity.
Qed.

Lemma paired_of_shapes (a b : string) :
  Spec.youtube_shaped a -> Spec.spotify_track_shaped b ->
  is_paired (a ++ "|" ++ b) = true /\ bad_format [a; b] = false.
Proof.
  intros [Hyt Ha] (Hhost & Htrack & Hb). split.
  - apply is_paired_iff. destruct Hyt as [Hyt | Hyt].
    + left. now apply str_in_app_l.
    + right. repeat split.
      * now apply str_in_app_l.
      * apply str_in_app_r. change ("|" ++ b) with (String "|" b).
        now apply (str_in_app_r _ "|" b).
      * apply str_in_app_r. now apply (str_in_app_r _ "|" b).
      * apply str_in_iff. now exists a, b.
  - unfold bad_format. cbn [List.length nth Nat.leb orb].
    assert (Hs : Py.str_in "spotify" b = true)
      by (apply (str_in_trans _ "open.spotify.com"); [reflexivity | assumption]).
    rewrite Hs. destruct Hyt as [Hyt | Hyt].
    + assert (Hy : Py.str_in "youtube" a = true)
        by (apply (str_in_trans _ "youtube.com/watch?v="); [reflexivity | assumption]).
      now rewrite Hy.
    + assert (Hy : Py.str_in "youtu.be" a = true)
        by (apply (str_in_trans _ "youtu.be/"); [reflexivity | assumption]).
      rewrite Hy. now destruct (Py.str_in "youtube" a).
Qed.

Lemma parse_step_paired_bad (request : string) (st : pq_state) :
  is_paired request = true -> bad_format (Py.split "|" request) = true ->
  parse_step W request st = raise (QueryError format_message).
Proof.
  intros Hp Hb. unfold parse_step. destruct st as [us ss]. now rewrite Hp, Hb.
Qed.

Lemma simple_step_paired_bad (request : string) (st : gs_state) :
  is_paired request = true -> bad_format (Py.split "|" request) = true ->
  simple_step W request st = raise (QueryError format_message).
Proof.
  intros Hp Hb. unfold simple_step. destruct st as [ss ls]. now rewrite Hp, Hb.
Qed.

Lemma parse_step_paired_ok (a b : string) (s : Song) (us : list string)
    (ss : list Song) :
  Spec.youtube_shaped a -> Spec.spotify_track_shaped b ->
  Song_from_url W b = Returns s ->
  parse_step W (a ++ "|" ++ b) (us, ss)
  = ([SongFromUrl b], Returns (us, (ss ++ [Song_with_download_url s a])%list)).
Proof.
  intros Ha Hb Hs. destruct (paired_of_shapes a b Ha Hb) as [Hp Hf].
  unfold parse_step. rewrite Hp.
  rewrite (split_pair a b (proj2 Ha) (proj2 (proj2 Hb))), Hf.
  cbn [nth]. rewrite Hs. reflexivity.
Qed.

Lemma simple_step_paired_ok (a b : string) (ss : list Song)
    (ls : list SongList) :
  Spec.youtube_shaped a -> Spec.spotify_track_shaped b ->
  simple_step W (a ++ "|" ++ b) (ss, ls)
  = ([], Returns ((ss ++ [Song_of_pair b a])%list, ls)).
Proof.
  intros Ha Hb. destruct (paired_of_shapes a b Ha Hb) as [Hp Hf].
  unfold simple_step. rewrite Hp.
  rewrite (split_pair a b (proj2 Ha) (proj2 (proj2 Hb))), Hf.
  reflexivity.
Qed.

End QueryFacts.

(** C1 (the code departs from the claim). The claim: a token is taken by
    rule 1 only when it carries a YouTube marker, the Spotify host, [track]
    and the separator. The code: the marker [youtube.com/watch?v=] alone is
    enough. The token below has no separator and no Spotify part, it is not a
    paired reference in the specification's sense, yet the first branch takes
    it, and dispatching it raises [QueryError]. *)
Theorem C1_bare_youtube_url_enters_rule_1 :
  Py.str_in "|" Fixtures.bare_youtube_token = false
  /\ Py.str_in "open.spotify.com" Fixtures.bare_youtube_token = false
  /\ ~ Spec.paired_reference Fixtures.bare_youtube_token
  /\ Query.is_paired Fixtures.bare_youtube_token = true
  /\ forall (W : Query.Collaborators) (threads : Z),
       Query.parse_query W [Fixtures.bare_youtube_token] threads
       = ([], Raises (QueryError Query.format_message))
       /\ Query.get_simple_songs W [Fixtures.bare_youtube_token]
          = ([], Raises (QueryError Query.format_message)).
Proof.
  assert (Hsep : Py.str_in "|" Fixtures.bare_youtube_token = false)
    by reflexivity.
  repeat split; try reflexivity.
  intros (_ & _ & _ & H). rewrite Hsep in H. discriminate.
Qed.

(** C4. A combined token [a|b], [a] YouTube-shaped and [b]
    Spotify-track-shaped, whose track metadata is fetched as [s]: the loop
    body appends exactly one Song and no url, whatever came before; the Song
    is [s] with its download url set to [a], every other attribute being that
    of [s]; dispatching the token alone returns that one Song, and the only
    calls made are the fetch of [b] and the (empty) pool: the search provider
    is never called. [get_simple_songs] returns the one Song made of url [b]
    and download url [a], with no call at all. *)
Theorem C4_paired_token_gives_one_pinned_song
    (W : Query.Collaborators) (a b : string) (s : Song) (threads : Z) :
  Spec.youtube_shaped a ->
  Spec.spotify_track_shaped b ->
  Query.Song_from_url W b = Returns s ->
  (0 < threads)%Z ->
  let token := (a ++ "|" ++ b)%string in
  let song := Song_with_download_url s a in
  (forall us ss,
      Query.parse_step W token (us, ss)
      = ([SongFromUrl b], Returns (us, ss ++ [song])))
  /\ Query.parse_query W [token] threads
     = ([SongFromUrl b; PoolMap threads []], Returns [song])
  /\ (forall term,
        ~ In (YouTubeSearch term) (trace (Query.parse_query W [token] threads)))
  /\ download_url song = Some a
  /\ (name song, artists song, duration song, isrc song, url song)
     = (name s, artists s, duration s, isrc s, url s)
  /\ Query.get_simple_songs W [token] = ([], Returns [Song_of_pair b a])
  /\ download_url (Song_of_pair b a) = Some a
  /\ url (Song_of_pair b a) = b.
Proof.
  intros Ha Hb Hs Ht token song.
  assert (Hstep : forall us ss,
             Query.parse_step W token (us, ss)
             = ([SongFromUrl b], Returns (us, ss ++ [song])))
    by (intros; now apply parse_step_paired_ok).
  assert (Hrun : Query.parse_query W [token] threads
                 = ([SongFromUrl b; PoolMap threads []], Returns [song])).
  { unfold Query.parse_query. cbn [for_each]. rewrite Hstep.
    unfold Query.executor_map.
    destruct (threads <=? 0)%Z eqn:E; [apply Z.leb_le in E; lia|].
    reflexivity. }
  repeat split; try assumption; try reflexivity.
  - intros term. rewrite Hrun. cbn [trace fst In].
    intros [H | [H | []]]; discriminate.
  - unfold Query.get_simple_songs. cbn [for_each].
    subst token. rewrite (simple_step_paired_ok W a b [] [] Ha Hb).
    reflexivity.
Qed.

(** C4 on the test doubles. *)
Lemma C4_paired_token_witness :
  Query.parse_query Fixtures.spotify
    [(Fixtures.video_x ++ "|" ++ Fixtures.track_a)%string] 1
  = ([SongFromUrl Fixtures.track_a; PoolMap 1 []],
     Returns [Song_with_download_url
                (Fixtures.song_named "fetched" Fixtures.track_a)
                Fixtures.video_x]).
Proof.
  refine (proj1 (proj2 (C4_paired_token_gives_one_pinned_song
            Fixtures.spotify Fixtures.video_x Fixtures.track_a
            (Fixtures.song_named "fetched" Fixtures.track_a) 1 _ _ _ _))).
  - split; [left; reflexivity | reflexivity].
  - repeat split; reflexivity.
  - reflexivity.
  - reflexivity.
Defined.

(** C5. A token that the first branch takes and that is malformed (fewer
    than two parts, or no YouTube host marker in part 0, or no Spotify host
    marker in part 1) makes both entry points raise [QueryError], wherever it
    stands in the query, provided the tokens before it were dispatched; the
    swapped token of the specification's example is such a token. *)
Theorem C5_malformed_paired_token_raises :
  (forall (W : Query.Collaborators) (token : string),
      Query.is_paired token = true ->
      Spec.malformed token ->
      (forall pre post threads st,
          result (for_each (Query.parse_step W) pre ([], [])) = Returns st ->
          result (Query.parse_query W (pre ++ token :: post) threads)
          = Raises (QueryError Query.format_message))
      /\ (forall pre post st,
             result (for_each (Query.simple_step W) pre ([], [])) = Returns st ->
             result (Query.get_simple_songs W (pre ++ token :: post))
             = Raises (QueryError Query.format_message)))
  /\ Query.is_paired Fixtures.swapped_token = true
  /\ Spec.malformed Fixtures.swapped_token
  /\ (forall (W : Query.Collaborators) (threads : Z),
         result (Query.parse_query W [Fixtures.swapped_token] threads)
         = Raises (QueryError Query.format_message)
         /\ result (Query.get_simple_songs W [Fixtures.swapped_token])
            = Raises (QueryError Query.format_message)).
Proof.
  split; [|repeat split; try reflexivity].
  - intros W token Hp Hm. apply bad_format_iff in Hm. split.
    + intros pre post threads st Hpre. unfold Query.parse_query.
      apply result_bind_raises.
      apply (for_each_raises_at _ pre post token _ st); [assumption|].
      now rewrite (parse_step_paired_bad W token st Hp Hm).
    + intros pre post st Hpre. unfold Query.get_simple_songs.
      apply result_bind_raises.
      apply (for_each_raises_at _ pre post token _ st); [assumption|].
      now rewrite (simple_step_paired_bad W token st Hp Hm).
  - right. left. split; reflexivity.
Qed.

(** C5 on the test doubles: the swapped token after a track url. *)
Lemma C5_malformed_paired_token_witness :
  result (Query.parse_query Fixtures.spotify
            [Fixtures.track_a; Fixtures.swapped_token; "hello"%string] 1)
  = Raises (QueryError Query.format_message).
Proof.
  refine (proj1 (proj1 C5_malformed_paired_token_raises
                   Fixtures.spotify Fixtures.swapped_token _ _)
                [Fixtures.track_a] ["hello"%string] 1%Z
                ([Fixtures.track_a], []) _).
  - reflexivity.
  - right. left. split; reflexivity.
  - reflexivity.
Defined.

(** ** The order of the Songs that [parse_query] returns *)

Section OrderOfOutput.

Import Query.

Variable W : Collaborators.

(** The urls of an artist's albums are appended to whatever was collected. *)
Lemma extend_urls_shift (albums : list string) (us : list string) :
  for_each (extend_urls W) albums us
  = map_result (app us) (for_each (extend_urls W) albums []).
Proof.
  revert us. induction albums as [|x albums IH]; intros us.
  - unfold map_result. simpl. now rewrite app_nil_r.
  - cbn [for_each]. unfold extend_urls at 1 3.
    destruct (Album_get_urls W x) as [l|e]; [|reflexivity].
    rewrite !bind_call_returns. cbn [ret trace result fst snd bind].
    rewrite (IH (us ++ l)), (IH ([] ++ l)). cbn [app].
    destruct (for_each (extend_urls W) albums []) as [t [d|e]];
      unfold map_result; cbn; [now rewrite app_assoc | reflexivity].
Qed.

(** What a token adds does not depend on what was collected before it. *)
Lemma parse_step_shift (request : string) (us : list string) (ss : list Song) :
  parse_step W request (us, ss)
  = map_result (fun d => (us ++ fst d, ss ++ snd d))
               (parse_step W request ([], [])).
Proof.
  unfold parse_step.
  destruct (is_paired request).
  { destruct (bad_format (Py.split "|" request)); [reflexivity|].
    destruct (Song_from_url W _); unfold map_result; cbn;
      [now rewrite app_nil_r | reflexivity]. }
  destruct (is_track request).
  { unfold map_result; cbn. now rewrite app_nil_r. }
  destruct (is_playlist request).
  { destruct (Playlist_get_urls W request); unfold map_result; cbn;
      [now rewrite app_nil_r | reflexivity]. }
  destruct (is_album request).
  { destruct (Album_get_urls W request); unfold map_result; cbn;
      [now rewrite app_nil_r | reflexivity]. }
  destruct (is_artist request).
  { destruct (Artist_get_albums W request) as [albums|e]; [|reflexivity].
    rewrite !bind_call_returns.
    rewrite (extend_urls_shift albums us).
    destruct (for_each (extend_urls W) albums []) as [t [d|e]];
      unfold map_result; cbn; [now rewrite !app_nil_r | reflexivity]. }
  destruct (String.eqb request "saved").
  { destruct (Saved_get_urls W); unfold map_result; cbn;
      [now rewrite app_nil_r | reflexivity]. }
  destruct (Py.endswith ".spotdl" request).
  { destruct (load_manifest W request); unfold map_result; cbn;
      [now rewrite app_nil_r | reflexivity]. }
  destruct (Song_from_search_term W request); unfold map_result; cbn;
    [now rewrite app_nil_r | reflexivity].
Qed.

(** The loop collects, token after token, what each token adds. *)
Lemma parse_loop_parts (query : list string) (st st' : pq_state) :
  result (for_each (parse_step W) query st) = Returns st' ->
  exists parts,
    Forall2 (fun tok p => result (parse_step W tok ([], [])) = Returns p)
            query parts
    /\ st' = (fst st ++ concat (map fst parts),
              snd st ++ concat (map snd parts)).
Proof.
  revert st. induction query as [|tok query IH]; intros [us ss] Hrun.
  - cbn in Hrun. injection Hrun as <-. exists []. split; [constructor|].
    cbn. now rewrite !app_nil_r.
  - cbn [for_each] in Hrun.
    apply result_bind_inv in Hrun as (mid & Hstep & Hrest).
    rewrite parse_step_shift in Hstep. unfold map_result in Hstep.
    destruct (parse_step W tok ([], [])) as [t [p|e]] eqn:Hp;
      cbn in Hstep; [|discriminate].
    injection Hstep as <-.
    destruct (IH _ Hrest) as (parts & Hparts & ->).
    exists (p :: parts). split; [constructor; [now rewrite Hp | assumption]|].
    cbn [fst snd map concat]. now rewrite !app_assoc.
Qed.

Lemma parse_loop_of_parts (query : list string) (parts : list pq_state)
    (st : pq_state) :
  Forall2 (fun tok p => result (parse_step W tok ([], [])) = Returns p)
          query parts ->
  result (for_each (parse_step W) query st)
  = Returns (fst st ++ concat (map fst parts),
             snd st ++ concat (map snd parts)).
Proof.
  intros Hparts. revert st.
  induction Hparts as [|tok p query parts Hp _ IH]; intros [us ss].
  - cbn. now rewrite !app_nil_r.
  - cbn [for_each].
    assert (Hstep : result (parse_step W tok (us, ss))
                    = Returns (us ++ fst p, ss ++ snd p)).
    { rewrite parse_step_shift. unfold map_result.
      destruct (parse_step W tok ([], [])) as [t [p'|e]]; cbn in Hp |- *;
        [now injection Hp as -> | discriminate]. }
    rewrite (result_bind_returns _ _ _ Hstep), IH.
    cbn [fst snd map concat]. now rewrite !app_assoc.
Qed.

End OrderOfOutput.

(** C2, refuted as stated. The query is a track url followed by a search
    term: the Song of the search term, the later token, comes first in the
    output, because track urls are only resolved after the loop. *)
Lemma C2_later_token_first_counterexample :
  result (Query.parse_query Fixtures.spotify
            [Fixtures.track_a; "hello"%string] 1)
  = Returns [Fixtures.song_named "hello" "";
             Fixtures.song_named "fetched" Fixtures.track_a]
  /\ ~ Spec.token_order Fixtures.spotify [Fixtures.track_a; "hello"%string] 1.
Proof.
  split; [reflexivity|].
  intros Hclaim. destruct (Hclaim _ eq_refl) as (parts & Hparts & Hsongs).
  inversion Hparts as [|t0 p0 q0 ps0 H0 Hrest]; subst.
  inversion Hrest as [|t1 p1 q1 ps1 H1 Hnil]; subst.
  inversion Hnil; subst.
  vm_compute in H0. vm_compute in H1.
  injection H0 as <-. injection H1 as <-.
  vm_compute in Hsongs. discriminate Hsongs.
Qed.

(** C2, amended. [parse_query] returns exactly when every token is
    dispatched, every collected url is fetched and the pool has a worker; its
    Songs are then: first the Songs built in the loop (paired references,
    manifest records, search terms), token after token; then the Songs
    fetched for the collected urls, in the order the urls were collected
    (token after token, and as each collection reported them), which is the
    order they were submitted to the pool. *)
Theorem C2_direct_songs_then_fetched_in_submission_order
    (W : Query.Collaborators) (query : list string) (threads : Z)
    (songs : list Song) :
  let shape :=
    exists (parts : list Query.pq_state) (fetched : list Song),
      Forall2 (fun tok p =>
                 result (Query.parse_step W tok ([], [])) = Returns p)
              query parts
      /\ Forall2 (fun u s => Query.Song_from_url W u = Returns s)
                 (concat (map fst parts)) fetched
      /\ songs = concat (map snd parts) ++ fetched in
  (result (Query.parse_query W query threads) = Returns songs -> shape)
  /\ ((0 < threads)%Z -> shape ->
      result (Query.parse_query W query threads) = Returns songs).
Proof.
  unfold Query.parse_query. split.
  - intros Hrun.
    apply result_bind_inv in Hrun as ([urls direct] & Hloop & Hrun).
    apply result_bind_inv in Hrun as (fetched & Hpool & Hret).
    cbn in Hret. injection Hret as <-.
    destruct (parse_loop_parts W query _ _ Hloop) as (parts & Hparts & Hst).
    cbn in Hst. injection Hst as -> ->.
    exists parts, fetched. split; [assumption|]. split; [|reflexivity].
    unfold Query.executor_map in Hpool.
    destruct (threads <=? 0)%Z; [discriminate|].
    now apply in_order_returns.
  - intros Ht (parts & fetched & Hparts & Hfetched & ->).
    rewrite (result_bind_returns _ _ _
               (parse_loop_of_parts W query parts ([], []) Hparts)).
    cbn [fst snd app].
    assert (Hpool : result (Query.executor_map W threads
                              (concat (map fst parts)))
                    = Returns fetched).
    { unfold Query.executor_map.
      destruct (threads <=? 0)%Z eqn:E; [apply Z.leb_le in E; lia|].
      cbn. now apply in_order_of_Forall2. }
    now rewrite (result_bind_returns _ _ _ Hpool).
Qed.

(** C2 on the test doubles: a search term between two track urls. *)
Lemma C2_direct_then_fetched_witness :
  exists (parts : list Query.pq_state) (fetched : list Song),
    Forall2 (fun tok p =>
               result (Query.parse_step Fixtures.spotify tok ([], []))
               = Returns p)
            [Fixtures.track_a; "hello"%string; Fixtures.track_b] parts
    /\ Forall2 (fun u s => Query.Song_from_url Fixtures.spotify u = Returns s)
               (concat (map fst parts)) fetched
    /\ [Fixtures.song_named "hello" "";
        Fixtures.song_named "fetched" Fixtures.track_a;
        Fixtures.song_named "fetched" Fixtures.track_b]
       = concat (map snd parts) ++ fetched.
Proof.
  apply (proj1 (C2_direct_songs_then_fetched_in_submission_order
                  Fixtures.spotify
                  [Fixtures.track_a; "hello"%string; Fixtures.track_b] 1 _)).
  reflexivity.
Defined.

(** C3, refuted as stated. Three track urls, the second of which cannot be
    fetched: the fetch of the first succeeds, yet [parse_query] raises and
    returns no Song at all. *)
Lemma C3_failed_fetch_counterexample :
  result (Query.parse_query Fixtures.spotify
            [Fixtures.track_a; Fixtures.track_missing; Fixtures.track_b] 4)
  = Raises (CollaboratorError "track not found")
  /\ Query.Song_from_url Fixtures.spotify Fixtures.track_a
     = Returns (Fixtures.song_named "fetched" Fixtures.track_a)
  /\ ~ Spec.isolates_failures Fixtures.spotify
         [Fixtures.track_a; Fixtures.track_missing; Fixtures.track_b] 4.
Proof.
  split; [reflexivity | split; [reflexivity|]].
  intros Hclaim. destruct (Hclaim _ _ eq_refl) as (songs & Hrun & _).
  vm_compute in Hrun. discriminate Hrun.
Qed.

(** C3, amended. When the loop has run through and the fetch of one of the
    submitted urls fails, [parse_query] raises the failure of the first such
    url in submission order: no Song is returned, neither for the other urls
    nor for the tokens resolved in the loop. *)
Theorem C3_failed_fetch_aborts_the_batch
    (W : Query.Collaborators) (query : list string) (threads : Z)
    (direct : list Song) (pre post : list string) (u : string) (e : Exc) :
  result (for_each (Query.parse_step W) query ([], []))
  = Returns (pre ++ u :: post, direct) ->
  Forall (fun v => exists s, Query.Song_from_url W v = Returns s) pre ->
  Query.Song_from_url W u = Raises e ->
  (0 < threads)%Z ->
  result (Query.parse_query W query threads) = Raises e.
Proof.
  intros Hloop Hpre Hu Ht. unfold Query.parse_query.
  rewrite (result_bind_returns _ _ _ Hloop).
  apply result_bind_raises. unfold Query.executor_map.
  destruct (threads <=? 0)%Z eqn:E; [apply Z.leb_le in E; lia|].
  cbn. now apply in_order_first_failure.
Qed.

(** C3 on the test doubles: the third of four tokens cannot be fetched. *)
Lemma C3_failed_fetch_witness :
  result (Query.parse_query Fixtures.spotify
            [Fixtures.track_a; "hello"%string; Fixtures.track_missing;
             Fixtures.track_b] 4)
  = Raises (CollaboratorError "track not found").
Proof.
  apply (C3_failed_fetch_aborts_the_batch Fixtures.spotify _ 4
           [Fixtures.song_named "hello" ""]
           [Fixtures.track_a] [Fixtures.track_b] Fixtures.track_missing).
  - reflexivity.
  - constructor; [eexists; reflexivity | constructor].
  - reflexivity.
  - reflexivity.
Defined.

(** ** The score dictionary and its sorting *)

Section DictFacts.

Import YouTube.

Lemma key_eqb_eq (a b : option string) : key_eqb a b = true <-> a = b.
Proof.
  destruct a as [x|], b as [y|]; simpl; try (split; congruence).
  rewrite String.eqb_eq. split; congruence.
Qed.

Lemma key_eqb_refl (a : option string) : key_eqb a a = true.
Proof. now apply key_eqb_eq. Qed.

Lemma key_eqb_neq (a b : option string) : a <> b -> key_eqb a b = false.
Proof.
  intros Hne. destruct (key_eqb a b) eqn:E; [|reflexivity].
  apply key_eqb_eq in E. contradiction.
Qed.

Lemma dict_get_set_same (k : option string) (v : PyNum.pynum) (d : dict) :
  dict_get k (dict_set k v d) = Some v.
Proof.
  induction d as [|[k' v'] d IH]; simpl.
  - now rewrite key_eqb_refl.
  - destruct (key_eqb k k') eqn:E; simpl.
    + now rewrite key_eqb_refl.
    + now rewrite E.
Qed.

Lemma dict_get_set_other (k k' : option string) (v : PyNum.pynum) (d : dict) :
  k <> k' -> dict_get k (dict_set k' v d) = dict_get k d.
Proof.
  intros Hne. induction d as [|[k0 v0] d IH]; simpl.
  - now rewrite (key_eqb_neq _ _ Hne).
  - destruct (key_eqb k' k0) eqn:E; simpl.
    + apply key_eqb_eq in E. subst k0. now rewrite (key_eqb_neq _ _ Hne).
    + now rewrite IH.
Qed.

(** Assigning to a key adds no other key. *)
Lemma dict_set_keys (k : option string) (v : PyNum.pynum) (d : dict)
    (kv : option string * PyNum.pynum) :
  In kv (dict_set k v d) -> fst kv = k \/ In kv d.
Proof.
  induction d as [|[k' v'] d IH]; simpl.
  - intros [<- | []]. now left.
  - destruct (key_eqb k k'); simpl.
    + intros [<- | Hin]; [now left | right; now right].
    + intros [<- | Hin]; [right; now left|].
      destruct (IH Hin) as [Hk | Hd]; [now left | right; now right].
Qed.

Lemma insert_desc_in (x y : option string * PyNum.pynum) (l : dict) :
  In y (insert_desc x l) -> y = x \/ In y l.
Proof.
  induction l as [|z l IH]; simpl.
  - intros [<- | []]. now left.
  - destruct (Qle_bool (PyNum.value (snd z)) (PyNum.value (snd x))); simpl.
    + intros [<- | Hin]; [now left | now right].
    + intros [<- | Hin]; [right; now left|].
      destruct (IH Hin) as [-> | Hl]; [now left | right; now right].
Qed.

(** Sorting adds no entry. *)
Lemma sorted_desc_in (y : option string * PyNum.pynum) (l : dict) :
  In y (sorted_desc l) -> In y l.
Proof.
  induction l as [|x l IH]; simpl; [auto|].
  intros Hin. apply insert_desc_in in Hin as [-> | Hin]; [now left|].
  right. now apply IH.
Qed.

End DictFacts.

(** ** The scoring loop *)

Section ScoringFacts.

Import YouTube.

Variable H : Helpers.
Variable self : Provider.

Lemma common_word_false_iff (slug_song_name slug_result_name : string) :
  common_word slug_song_name slug_result_name = false
  <-> Spec.shares_no_word slug_song_name slug_result_name.
Proof.
  unfold common_word, Spec.shares_no_word, Py.any. cbv zeta.
  set (words := Py.split " " (Py.replace "-" " " slug_song_name)).
  split.
  - intros Hnone word Hin Hne.
    destruct (Py.str_in word slug_result_name) eqn:E; [|reflexivity].
    assert (Hsome : existsb
              (fun w => negb (String.eqb w "") && Py.str_in w slug_result_name)
              words = true).
    { apply existsb_exists. exists word. split; [assumption|].
      rewrite E, andb_true_r. apply negb_true_iff.
      now apply String.eqb_neq. }
    congruence.
  - intros Hall.
    destruct (existsb _ words) eqn:E; [|reflexivity].
    apply existsb_exists in E as (word & Hin & Hw).
    apply andb_true_iff in Hw as [Hne Hsub].
    apply negb_true_iff, String.eqb_neq in Hne.
    rewrite (Hall word Hin Hne) in Hsub. discriminate.
Qed.

Lemma bind_lift {A B : Type} (o : outcome A) (k : A -> M B) :
  bind (lift o) k
  = match o with
    | Returns a => k a
    | Raises e => raise e
    end.
Proof. destruct o as [a|e]; [apply (bind_ret_l a k) | reflexivity]. Qed.

(** What a step does: it leaves the dictionary as it is, or raises, or
    assigns to the candidate's watch url, the last only for a candidate with
    a video id and a common word. *)
Lemma order_step_shape (song : Song) (sn st : string) (r : PyTube)
    (acc : dict) :
  order_step H song sn st r acc = ret acc
  \/ (exists e, order_step H song sn st r acc = raise e)
  \/ exists v,
       order_step H song sn st r acc = ret (dict_set (watch_url r) v acc)
       /\ (exists id, video_id r = Some id)
       /\ common_word sn (slugify H (title r)) = true.
Proof.
  unfold order_step.
  destruct (video_id r) as [id|] eqn:Hid; [|now left].
  destruct (common_word sn (slugify H (title r))) eqn:Hcw;
    cbn [negb]; [|now left].
  rewrite bind_lift.
  destruct (artist_match_number H song _) as [total|e]; [|right; left; eauto].
  rewrite bind_lift.
  destruct (PyNum.truediv total _) as [artist_match|e]; [|right; left; eauto].
  destruct (PyNum.lt_small artist_match 70); [now left|].
  destruct (PyNum.lt_small _ 50); [now left|].
  rewrite bind_lift.
  destruct (time_match H song r) as [t|e]; [|right; left; eauto].
  rewrite bind_lift.
  destruct (PyNum.add artist_match _) as [s1|e]; [|right; left; eauto].
  rewrite bind_lift.
  destruct (PyNum.add s1 t) as [s2|e]; [|right; left; eauto].
  rewrite bind_lift.
  destruct (PyNum.truediv s2 3) as [v|e]; [|right; left; eauto].
  right. right. exists v. split; [reflexivity|].
  split; [now exists id | reflexivity].
Qed.

(** A step leaves the dictionary as it is or assigns to the candidate's watch
    url, the latter only for a candidate with a video id and a common word. *)
Lemma order_step_cases (song : Song) (sn st : string) (r : PyTube)
    (acc d : dict) :
  result (order_step H song sn st r acc) = Returns d ->
  d = acc
  \/ exists v,
       d = dict_set (watch_url r) v acc
       /\ (exists id, video_id r = Some id)
       /\ common_word sn (slugify H (title r)) = true.
Proof.
  destruct (order_step_shape song sn st r acc)
    as [-> | [[e ->] | (v & -> & Hid & Hcw)]]; cbn.
  - intros [= <-]. now left.
  - discriminate.
  - intros [= <-]. right. now exists v.
Qed.

Lemma order_step_trace (song : Song) (sn st : string) (r : PyTube) (acc : dict) :
  trace (order_step H song sn st r acc) = [].
Proof.
  destruct (order_step_shape song sn st r acc)
    as [-> | [[e ->] | (v & -> & _)]]; reflexivity.
Qed.

Lemma order_loop_trace (song : Song) (sn st : string) (l : list PyTube)
    (acc : dict) :
  trace (for_each (order_step H song sn st) l acc) = [].
Proof.
  revert acc. induction l as [|r l IH]; intros acc; [reflexivity|].
  cbn [for_each].
  pose proof (order_step_trace song sn st r acc) as Ht.
  destruct (order_step H song sn st r acc) as [t [d|e]]; cbn in Ht; subst t.
  - specialize (IH d). cbn.
    destruct (for_each (order_step H song sn st) l d) as [t' o].
    cbn in IH. now subst t'.
  - reflexivity.
Qed.

(** Every key of the dictionary the loop returns was there at the start or is
    the watch url of a candidate with a video id and a common word. *)
Lemma order_loop_keys (P : option string -> Prop) (song : Song) (sn st : string)
    (l : list PyTube) (acc d : dict) :
  result (for_each (order_step H song sn st) l acc) = Returns d ->
  (forall kv, In kv acc -> P (fst kv)) ->
  (forall r, In r l -> (exists id, video_id r = Some id) ->
             common_word sn (slugify H (title r)) = true ->
             P (watch_url r)) ->
  forall kv, In kv d -> P (fst kv).
Proof.
  revert acc. induction l as [|r l IH]; intros acc Hrun Hacc Hl.
  - cbn in Hrun. injection Hrun as <-. exact Hacc.
  - cbn [for_each] in Hrun.
    apply result_bind_inv in Hrun as (mid & Hstep & Hrest).
    apply (IH mid Hrest).
    + intros kv Hin.
      destruct (order_step_cases _ _ _ _ _ _ Hstep)
        as [-> | (v & -> & Hid & Hcw)]; [now apply Hacc|].
      apply dict_set_keys in Hin as [-> | Hin]; [|now apply Hacc].
      apply Hl; [now left | assumption | assumption].
    + intros r' Hin. apply Hl. now right.
Qed.

(** A watch url returned in scoring mode is a key of the dictionary that
    [order_results] built. *)
Lemma search_term_scored (song : Song) (term : string)
    (results : list PyTube) (w : string) :
  filter_results self = false ->
  get_results H term = Returns (Some results) ->
  result (search_term H self song term) = Returns (Some w) ->
  exists d v,
    result (order_results H self results song) = Returns d
    /\ In (Some w, v) d.
Proof.
  intros Hmode Hget. unfold search_term.
  rewrite Hget, bind_call_returns, Hmode. cbn [result snd].
  intros Hrun. apply result_bind_inv in Hrun as (d & Hd & Hpick).
  destruct (List.length d =? 0)%nat; [discriminate|].
  destruct (sorted_desc d) as [|[k v] rest] eqn:Hs; [discriminate|].
  cbn in Hpick. injection Hpick as ->.
  exists d, v. split; [assumption|].
  apply sorted_desc_in. rewrite Hs. now left.
Qed.

(** The only call of [search_term] is the search itself. *)
Lemma search_term_trace (song : Song) (term : string) :
  trace (search_term H self song term) = [YouTubeSearch term].
Proof.
  unfold search_term.
  destruct (get_results H term) as [[results|]|e]; try reflexivity.
  rewrite bind_call_returns. cbn [trace fst]. f_equal.
  destruct (filter_results self).
  - destruct results as [|first rest]; reflexivity.
  - unfold order_results.
    pose proof (order_loop_trace song (slug_name H song)
                  (slug_title H self song) results []) as Ht.
    destruct (for_each (order_step H song (slug_name H song)
                          (slug_title H self song)) results [])
      as [t [d|e]]; cbn in Ht; subst t; [|reflexivity].
    cbn. destruct (List.length d =? 0)%nat; [reflexivity|].
    destruct (sorted_desc d); reflexivity.
Qed.

(** The loop over the artists is the running total of their similarities. *)
Lemma artist_loop_raises (similarity : string -> PyNum.pynum)
    (l : list string) (e : Exc) :
  fold_left
    (fun acc artist =>
       PyNum.and_then acc (fun total => PyNum.add total (similarity artist)))
    l (Raises e)
  = Raises e.
Proof. induction l as [|a l IH]; [reflexivity | exact IH]. Qed.

Lemma artist_loop_total (similarity : string -> PyNum.pynum)
    (l : list string) (total : PyNum.pynum) :
  fold_left
    (fun acc artist =>
       PyNum.and_then acc (fun total => PyNum.add total (similarity artist)))
    l (Returns total)
  = Spec.running_total similarity l total.
Proof.
  revert total. induction l as [|a l IH]; intros total; [reflexivity|].
  cbn [fold_left Spec.running_total PyNum.and_then].
  destruct (PyNum.add total (similarity a)) as [total'|e];
    [apply IH | apply artist_loop_raises].
Qed.

Lemma artist_match_number_total (song : Song) (slug_result_name : string) :
  artist_match_number H song slug_result_name
  = Spec.running_total
      (fun artist => match_percentage H (slugify H artist) slug_result_name)
      (artists song) (PyNum.PyFloat 0%float).
Proof.
  unfold artist_match_number.
  apply (artist_loop_total
           (fun artist => match_percentage H (slugify H artist)
                                           slug_result_name)).
Qed.

Lemma bind_ext {A B : Type} (m : M A) (k k' : A -> M B) :
  (forall a, k a = k' a) -> bind m k = bind m k'.
Proof.
  intros Hk. destruct m as [t [a|e]]; [|reflexivity].
  cbn. now rewrite Hk.
Qed.

(** The loop gives for a result list what it gives for its candidates with a
    video id. *)
Lemma order_loop_skips_without_id (song : Song) (sn st : string)
    (l : list PyTube) (acc : dict) :
  for_each (order_step H song sn st) l acc
  = for_each (order_step H song sn st)
      (filter (fun r => match video_id r with
                        | Some _ => true
                        | None => false
                        end) l) acc.
Proof.
  revert acc. induction l as [|r l IH]; intros acc; [reflexivity|].
  cbn [for_each filter].
  destruct (video_id r) as [id|] eqn:Hid.
  - cbn [for_each]. apply bind_ext. exact IH.
  - unfold order_step at 1. rewrite Hid, bind_ret_l. apply IH.
Qed.

(** A watch url returned in scoring mode is the watch url of a candidate
    with a video id of the provider's answer. *)
Lemma scoring_returns_a_candidate_with_id (song : Song) (term : string)
    (w : string) :
  filter_results self = false ->
  result (search_term H self song term) = Returns (Some w) ->
  exists results r id,
    get_results H term = Returns (Some results)
    /\ In r results
    /\ watch_url r = Some w
    /\ video_id r = Some id.
Proof.
  intros Hmode Hrun.
  destruct (get_results H term) as [[results|]|e] eqn:Hget.
  - destruct (search_term_scored song term results w Hmode Hget Hrun)
      as (d & v & Hd & Hin).
    unfold order_results in Hd.
    destruct (order_loop_keys
                (fun k => exists r id,
                     In r results /\ watch_url r = k /\ video_id r = Some id)
                song _ _ results [] d Hd) with (kv := (Some w, v))
      as (r & id & Hr & Hw & Hid); [intros kv [] | | assumption |].
    + intros r Hr [id Hid] _. now exists r, id.
    + exists results, r, id. now repeat split.
  - unfold search_term in Hrun. rewrite Hget in Hrun. discriminate Hrun.
  - unfold search_term in Hrun. rewrite Hget in Hrun. discriminate Hrun.
Qed.

(** A watch url whose candidates all lack a common word with the song's name
    is not returned in scoring mode. *)
Lemma scoring_never_returns_wordless (song : Song) (term : string)
    (w : string) :
  filter_results self = false ->
  (forall results r,
      get_results H term = Returns (Some results) ->
      In r results -> watch_url r = Some w ->
      Spec.shares_no_word (slugify H (name song)) (slugify H (title r))) ->
  result (search_term H self song term) <> Returns (Some w).
Proof.
  intros Hmode Hnone Hrun.
  destruct (get_results H term) as [[results|]|e] eqn:Hget.
  - destruct (search_term_scored song term results w Hmode Hget Hrun)
      as (d & v & Hd & Hin).
    unfold order_results in Hd.
    assert (Hkey : forall kv, In kv d -> fst kv = Some w -> False).
    { apply (order_loop_keys (fun k => k = Some w -> False) song _ _
               results [] d Hd).
      - intros kv [].
      - intros r Hr _ Hcw Hw.
        apply (Hnone results r eq_refl Hr) in Hw.
        apply common_word_false_iff in Hw.
        unfold slug_name in Hcw. congruence. }
    exact (Hkey _ Hin eq_refl).
  - unfold search_term in Hrun. rewrite Hget in Hrun. discriminate Hrun.
  - unfold search_term in Hrun. rewrite Hget in Hrun. discriminate Hrun.
Qed.

End ScoringFacts.

Section SearchFacts.

Import YouTube.

Variable H : Helpers.
Variable self : Provider.

(** A later candidate with another watch url leaves the entry alone. *)
Lemma order_loop_keeps (k : option string) (song : Song) (sn st : string)
    (l : list PyTube) (acc d : dict) :
  result (for_each (order_step H song sn st) l acc) = Returns d ->
  Forall (fun r => watch_url r <> k) l ->
  dict_get k d = dict_get k acc.
Proof.
  revert acc. induction l as [|r l IH]; intros acc Hrun Hl.
  - cbn in Hrun. now injection Hrun as <-.
  - cbn [for_each] in Hrun.
    apply result_bind_inv in Hrun as (mid & Hstep & Hrest).
    inversion Hl as [|r' l' Hr Hl']; subst.
    rewrite (IH mid Hrest Hl').
    destruct (order_step_cases _ _ _ _ _ _ _ Hstep) as [-> | (v & -> & _)];
      [reflexivity|].
    apply dict_get_set_other. congruence.
Qed.

(** [search] returns what [search_term] returns for the chosen term, unless
    the single ISRC match is returned first. *)
Lemma search_result_cases (song : Song) (w : string) :
  result (search H self song) = Returns (Some w) ->
  result (search_term H self song (chosen_term H self song)) = Returns (Some w)
  \/ (Py.truthy (search_query self) = false
      /\ exists i c,
           isrc song = Some i
           /\ i <> ""%string
           /\ get_results H i = Returns (Some [c])
           /\ watch_url c = Some w).
Proof.
  unfold search, chosen_term, text_search.
  destruct (Py.truthy (search_query self)); [now left|].
  destruct (isrc song) as [i|]; [|now left].
  destruct (String.eqb i "") eqn:Ei; [now left|].
  apply String.eqb_neq in Ei.
  destruct (get_results H i) as [[cs|]|e] eqn:Hi.
  - rewrite bind_call_returns. cbn [result snd].
    destruct cs as [|c [|c' cs]]; [now left | | now left].
    destruct (watch_url c) as [w'|] eqn:Hw; [|now left].
    cbn. intros [= ->]. right. split; [reflexivity|].
    now exists i, c.
  - rewrite bind_call_returns. now left.
  - discriminate.
Qed.

End SearchFacts.

(** C6. No custom template, an ISRC on the song: when the ISRC lookup
    answers with exactly one candidate whose watch url is not [None],
    [search] returns that url and its only call is the lookup, whatever the
    candidate's title, id or length; when the lookup answers with no candidate
    or with more than one, [search] goes on to the text search: its second
    call is the search for the lowercased song title and its result is that
    of the text search. *)
Theorem C6_single_isrc_match_is_returned_at_once
    (H : YouTube.Helpers) (self : YouTube.Provider) (song : Song)
    (i : string) (answer : option (list PyTube)) :
  Py.truthy (YouTube.search_query self) = false ->
  isrc song = Some i ->
  i <> ""%string ->
  YouTube.get_results H i = Returns answer ->
  (forall c w,
      answer = Some [c] -> watch_url c = Some w ->
      YouTube.search H self song = ([YouTubeSearch i], Returns (Some w)))
  /\ (List.length (Spec.candidates answer) <> 1%nat ->
      YouTube.search H self song
      = ([YouTubeSearch i;
          YouTubeSearch (YouTube.str_lower H
                           (YouTube.create_song_title H (name song) (artists song)))],
         result (YouTube.text_search H self song))).
Proof.
  intros Htpl Hisrc Hne Hget.
  apply String.eqb_neq in Hne.
  unfold YouTube.search. rewrite Htpl, Hisrc, Hne, Hget. split.
  - intros c w -> Hw. rewrite bind_call_returns, Hw. reflexivity.
  - intros Hlen. rewrite bind_call_returns.
    assert (Hfall :
      match answer with
      | Some [c] =>
          match watch_url c with
          | Some w => ret (Some w)
          | None => YouTube.text_search H self song
          end
      | _ => YouTube.text_search H self song
      end = YouTube.text_search H self song).
    { destruct answer as [[|c [|c' cs]]|]; try reflexivity.
      now contradiction Hlen. }
    rewrite Hfall. unfold YouTube.text_search at 1.
    now rewrite search_term_trace.
Qed.

(** C6 on the test doubles: the ISRC match has a title unlike the song's. *)
Lemma C6_single_isrc_match_witness :
  YouTube.search (Fixtures.helpers Fixtures.answers) Fixtures.scoring
                 Fixtures.isrc_song
  = ([YouTubeSearch Fixtures.isrc_code],
     Returns (Some "https://youtube.com/watch?v=isrc"%string)).
Proof.
  refine (proj1 (C6_single_isrc_match_is_returned_at_once
                   (Fixtures.helpers Fixtures.answers) Fixtures.scoring
                   Fixtures.isrc_song Fixtures.isrc_code _ _ _ _ _) _ _ _ _).
  - reflexivity.
  - reflexivity.
  - discriminate.
  - reflexivity.
  - reflexivity.
  - reflexivity.
Defined.

(** C7 (the claim does not hold of [search]). Scoring mode, the song of the
    test doubles with an ISRC: the lookup is answered by one candidate titled
    [zzz], whose title contains no word of the song's name [test], and
    [search] returns the watch url of that candidate. *)
Lemma C7_isrc_match_without_common_word_counterexample :
  YouTube.filter_results Fixtures.scoring = false
  /\ Fixtures.answers Fixtures.isrc_code
     = Returns (Some [Fixtures.candidate "zzz" 10
                        "https://youtube.com/watch?v=isrc"])
  /\ Spec.shares_no_word
       (YouTube.slugify (Fixtures.helpers Fixtures.answers)
          (name Fixtures.isrc_song))
       (YouTube.slugify (Fixtures.helpers Fixtures.answers) "zzz")
  /\ YouTube.search (Fixtures.helpers Fixtures.answers) Fixtures.scoring
       Fixtures.isrc_song
     = ([YouTubeSearch Fixtures.isrc_code],
        Returns (Some "https://youtube.com/watch?v=isrc"%string)).
Proof.
  split; [reflexivity|]. split; [reflexivity|]. split; [|reflexivity].
  intros word [<- | []] _. reflexivity.
Qed.

(** C7, amended. Scoring mode ([filter_results] off), any song, any
    provider, any similarity function and lengths. Let [w] be a watch url
    such that every candidate carrying it in the answer to the term of
    [search] (the rendered template, or the lowercased song title) has a
    slugified title without any of the non-empty words of the song's
    slugified name. Then the scored search for that term never returns [w];
    [search] returns [w] only when it is the watch url of the single
    candidate of the ISRC lookup, which is returned before any gate; and
    [search] never returns [w] for a song without ISRC or under a custom
    template. *)
Theorem C7_no_common_word_never_selected
    (H : YouTube.Helpers) (self : YouTube.Provider) (song : Song)
    (w : string) :
  let term :=
    if Py.truthy (YouTube.search_query self)
    then YouTube.create_search_query H song
           (match YouTube.search_query self with
            | Some s => s
            | None => ""%string
            end)
    else YouTube.str_lower H
           (YouTube.create_song_title H (name song) (artists song)) in
  YouTube.filter_results self = false ->
  (forall results r,
      YouTube.get_results H term = Returns (Some results) ->
      In r results -> watch_url r = Some w ->
      Spec.shares_no_word (YouTube.slugify H (name song))
                          (YouTube.slugify H (title r))) ->
  result (YouTube.search_term H self song term) <> Returns (Some w)
  /\ (result (YouTube.search H self song) = Returns (Some w) ->
      Py.truthy (YouTube.search_query self) = false
      /\ exists i c,
           isrc song = Some i
           /\ i <> ""%string
           /\ YouTube.get_results H i = Returns (Some [c])
           /\ watch_url c = Some w)
  /\ (isrc song = None \/ Py.truthy (YouTube.search_query self) = true ->
      result (YouTube.search H self song) <> Returns (Some w)).
Proof.
  intros term Hmode Hnone.
  pose proof (scoring_never_returns_wordless H self song term w Hmode Hnone)
    as Hnever.
  split; [exact Hnever|].
  assert (Hcases :
    result (YouTube.search H self song) = Returns (Some w) ->
    Py.truthy (YouTube.search_query self) = false
    /\ exists i c,
         isrc song = Some i
         /\ i <> ""%string
         /\ YouTube.get_results H i = Returns (Some [c])
         /\ watch_url c = Some w).
  { intros Hrun.
    destruct (search_result_cases H self song w Hrun) as [Hscored | Hisrc];
      [contradiction | exact Hisrc]. }
  split; [exact Hcases|].
  intros Hno Hrun. destruct (Hcases Hrun) as (Htpl & i & c & Hi & _).
  destruct Hno as [Hno | Hno]; congruence.
Qed.

(** C7 on the example of the specification, a song without ISRC: [search]
    never returns [Unrelated], it returns [A - Test]. *)
Lemma C7_no_common_word_witness :
  result (YouTube.search (Fixtures.helpers Fixtures.answers)
            Fixtures.scoring Fixtures.test_song)
  <> Returns (Some "https://youtube.com/watch?v=2"%string)
  /\ result (YouTube.search (Fixtures.helpers Fixtures.answers)
               Fixtures.scoring Fixtures.test_song)
     = Returns (Some "https://youtube.com/watch?v=1"%string).
Proof.
  split; [|reflexivity].
  refine (proj2 (proj2 (C7_no_common_word_never_selected
                          (Fixtures.helpers Fixtures.answers) Fixtures.scoring
                          Fixtures.test_song
                          "https://youtube.com/watch?v=2" _ _)) _).
  - reflexivity.
  - intros results r [= <-] [<- | [<- | []]] Hw; [discriminate Hw|].
    intros word [<- | []] _. reflexivity.
  - left. reflexivity.
Defined.

(** C10 (the claim does not hold of [search]). Scoring mode, a song with an
    ISRC: the lookup is answered by one candidate without video id, and
    [search] returns the watch url of that candidate. *)
Lemma C10_isrc_match_without_id_counterexample :
  YouTube.filter_results Fixtures.scoring = false
  /\ Fixtures.answers_without_id Fixtures.noid_isrc
     = Returns (Some [Fixtures.without_id "a - test" 200])
  /\ video_id (Fixtures.without_id "a - test" 200) = None
  /\ YouTube.search (Fixtures.helpers Fixtures.answers_without_id)
       Fixtures.scoring Fixtures.noid_song
     = ([YouTubeSearch Fixtures.noid_isrc],
        Returns (Some "https://youtube.com/watch?v=None"%string)).
Proof.
  split; [reflexivity|]. split; [reflexivity|].
  split; reflexivity.
Qed.

(** C10, amended. A candidate without video id leaves the dictionary of
    [order_results] untouched before any gate or score is computed (so also
    where the gates would raise), and [order_results] gives for a result list
    what it gives for its candidates with a video id. In scoring mode a watch
    url returned by [search] is therefore the watch url of a candidate with a
    video id of the answer to the search term, unless it is the watch url of
    the single candidate of the ISRC lookup, whose video id is not read. *)
Theorem C10_candidates_without_id_are_skipped
    (H : YouTube.Helpers) (self : YouTube.Provider) (song : Song) :
  (forall slug_song_name slug_song_title r links,
      video_id r = None ->
      YouTube.order_step H song slug_song_name slug_song_title r links
      = ret links)
  /\ (forall results,
         YouTube.order_results H self results song
         = YouTube.order_results H self
             (filter (fun r => match video_id r with
                               | Some _ => true
                               | None => false
                               end) results) song)
  /\ (YouTube.filter_results self = false ->
      forall w,
        result (YouTube.search H self song) = Returns (Some w) ->
        (exists results r id,
            YouTube.get_results H
              (if Py.truthy (YouTube.search_query self)
               then YouTube.create_search_query H song
                      (match YouTube.search_query self with
                       | Some s => s
                       | None => ""%string
                       end)
               else YouTube.str_lower H
                      (YouTube.create_song_title H (name song) (artists song)))
            = Returns (Some results)
            /\ In r results
            /\ watch_url r = Some w
            /\ video_id r = Some id)
        \/ (Py.truthy (YouTube.search_query self) = false
            /\ exists i c,
                 isrc song = Some i
                 /\ i <> ""%string
                 /\ YouTube.get_results H i = Returns (Some [c])
                 /\ watch_url c = Some w)).
Proof.
  split; [|split].
  - intros sn st r links Hid. unfold YouTube.order_step. now rewrite Hid.
  - intros results. unfold YouTube.order_results.
    apply order_loop_skips_without_id.
  - intros Hmode w Hrun.
    destruct (search_result_cases H self song w Hrun) as [Hscored | Hisrc];
      [left | right; exact Hisrc].
    exact (scoring_returns_a_candidate_with_id H self song _ w Hmode Hscored).
Qed.

(** C10 on the test doubles: the answer to the search term holds a candidate
    without video id whose title is the song's, before a candidate with an
    id; the url returned is that of the candidate with the id. *)
Lemma C10_candidates_without_id_witness :
  Fixtures.answers_without_id "a - test"
  = Returns (Some [Fixtures.without_id "a - test" 200;
                   Fixtures.candidate "a - test" 200
                     "https://youtube.com/watch?v=1"])
  /\ result (YouTube.search (Fixtures.helpers Fixtures.answers_without_id)
               Fixtures.scoring Fixtures.test_song)
     = Returns (Some "https://youtube.com/watch?v=1"%string)
  /\ ((exists results r id,
          Fixtures.answers_without_id "a - test" = Returns (Some results)
          /\ In r results
          /\ watch_url r = Some "https://youtube.com/watch?v=1"%string
          /\ video_id r = Some id)
      \/ (Py.truthy (YouTube.search_query Fixtures.scoring) = false
          /\ exists i c,
               isrc Fixtures.test_song = Some i
               /\ i <> ""%string
               /\ Fixtures.answers_without_id i = Returns (Some [c])
               /\ watch_url c = Some "https://youtube.com/watch?v=1"%string)).
Proof.
  split; [reflexivity|]. split; [reflexivity|].
  refine (proj2 (proj2 (C10_candidates_without_id_are_skipped
                          (Fixtures.helpers Fixtures.answers_without_id)
                          Fixtures.scoring Fixtures.test_song))
                _ "https://youtube.com/watch?v=1"%string _).
  - reflexivity.
  - reflexivity.
Defined.

(** C8 (the claim does not hold as worded). A 200-second result of the
    200-second song of the test doubles, with artist and name similarities
    of 100.0: [order_results] records the float 6733.333333333333, which is
    7403378293691733 / 2^40 and not the mean 20200/3 of the three scores in
    exact arithmetic. *)
Lemma C8_exact_mean_counterexample :
  YouTube.order_results (Fixtures.helpers Fixtures.answers) Fixtures.scoring
    [Fixtures.candidate "a - test" 200 "w"] Fixtures.test_song
  = ret [(Some "w"%string, PyNum.PyFloat 6733.333333333333%float)]
  /\ PyNum.value (PyNum.PyFloat 6733.333333333333%float)
     == 7403378293691733 # (2 ^ 40)
  /\ Spec.exact_mean 100 100 200 200 == 20200 # 3
  /\ ~ PyNum.value (PyNum.PyFloat 6733.333333333333%float)
       == Spec.exact_mean 100 100 200 200.
Proof.
  split; [vm_compute; reflexivity|].
  split; [vm_compute; reflexivity|].
  split; [vm_compute; reflexivity|].
  intros Heq. vm_compute in Heq. discriminate Heq.
Qed.

(** C8, amended. A candidate with a video id and a common word, for which
    Python's arithmetic ([int]s exact, floats rounded at every operation)
    gives: the artist similarities added one after the other from [0.0] and
    divided by the number of artists, not below 70; the name similarity, not
    below 50; [100 - (length - duration**2) / duration * 100] computed from
    left to right; and the sum of the three, taken in that order, divided by
    3. The loop body assigns that last value, as it stands, to the
    candidate's watch url, and the dictionary that [order_results] returns
    still holds it when no later candidate carries the same url. The value
    is not clamped: above 100 for a 200-second result of a 200-second song
    and below 0 for a 1000-second result of a 1-second song. The gates are
    those of the floats: an artist score that the floats round to 70.0 keeps
    a candidate whose exact average is below 70. No score is recorded where
    the arithmetic raises: a duration of zero, or one whose square is out of
    the range of the floats. *)
Theorem C8_recorded_score_is_the_unclamped_mean :
  (forall (H : YouTube.Helpers) (self : YouTube.Provider) (song : Song)
          (r : PyTube) (id : string)
          (total artist_match squared difference quotient product time_match
           sum_of_two sum_of_three average_match : PyNum.pynum),
      let slug_song_name := YouTube.slugify H (name song) in
      let slug_song_title :=
        YouTube.slugify H
          (if negb (Py.truthy (YouTube.search_query self))
           then YouTube.create_song_title H (name song) (artists song)
           else YouTube.create_search_query H song
                  (match YouTube.search_query self with
                   | Some s => s
                   | None => ""%string
                   end)) in
      let slug_result_name := YouTube.slugify H (title r) in
      let name_match :=
        YouTube.match_percentage H slug_result_name slug_song_title in
      video_id r = Some id ->
      YouTube.common_word slug_song_name slug_result_name = true ->
      Spec.running_total
        (fun artist =>
           YouTube.match_percentage H (YouTube.slugify H artist)
                                    slug_result_name)
        (artists song) (PyNum.PyFloat 0%float)
      = Returns total ->
      PyNum.truediv total
        (PyNum.PyInt (Z.of_nat (List.length (artists song))))
      = Returns artist_match ->
      PyNum.lt_small artist_match 70 = false ->
      PyNum.lt_small name_match 50 = false ->
      PyNum.square (YouTube.c_pow_2 H) (duration song) = Returns squared ->
      PyNum.sub (length r) squared = Returns difference ->
      PyNum.truediv difference (duration song) = Returns quotient ->
      PyNum.mul quotient 100 = Returns product ->
      PyNum.sub 100 product = Returns time_match ->
      PyNum.add artist_match name_match = Returns sum_of_two ->
      PyNum.add sum_of_two time_match = Returns sum_of_three ->
      PyNum.truediv sum_of_three 3 = Returns average_match ->
      (forall links,
          YouTube.order_step H song slug_song_name slug_song_title r links
          = ret (YouTube.dict_set (watch_url r) average_match links))
      /\ (forall before after d,
             result (YouTube.order_results H self (before ++ r :: after) song)
             = Returns d ->
             Forall (fun r' => watch_url r' <> watch_url r) after ->
             YouTube.dict_get (watch_url r) d = Some average_match))
  /\ (YouTube.order_results (Fixtures.helpers Fixtures.answers)
        Fixtures.scoring
        [Fixtures.candidate "a - test" 200 "w"] Fixtures.test_song
      = ret [(Some "w"%string, PyNum.PyFloat 6733.333333333333%float)]
      /\ 100 < PyNum.value (PyNum.PyFloat 6733.333333333333%float))
  /\ (YouTube.order_results (Fixtures.helpers Fixtures.answers)
        Fixtures.scoring
        [Fixtures.candidate "a - test" 1000 "w"] Fixtures.short_song
      = ret [(Some "w"%string, PyNum.PyFloat (-33200)%float)]
      /\ PyNum.value (PyNum.PyFloat (-33200)%float) < 0)
  /\ (YouTube.artist_match_number Fixtures.boundary_helpers
        Fixtures.boundary_song "test"
      = Returns (PyNum.PyFloat 210%float)
      /\ (PyNum.value (PyNum.PyFloat 41.666666666666664%float)
          + PyNum.value (PyNum.PyFloat 75%float)
          + PyNum.value (PyNum.PyFloat 93.33333333333333%float)) / 3 < 70
      /\ YouTube.order_results Fixtures.boundary_helpers Fixtures.scoring
           [Fixtures.candidate "test" 200 "w"] Fixtures.boundary_song
         = ret [(Some "w"%string, PyNum.PyFloat 6723.333333333333%float)])
  /\ YouTube.order_results (Fixtures.helpers Fixtures.answers)
       Fixtures.scoring
       [Fixtures.candidate "a - test" 200 "w"] Fixtures.zero_duration_song
     = raise ZeroDivisionError
  /\ YouTube.order_results (Fixtures.helpers Fixtures.answers)
       Fixtures.scoring
       [Fixtures.candidate "a - test" 200 "w"] Fixtures.endless_song
     = raise OverflowError.
Proof.
  split.
  2: { repeat apply conj; vm_compute; reflexivity. }
  intros H self song r id total artist_match squared difference quotient
         product time_match sum_of_two sum_of_three average_match
         slug_song_name slug_song_title slug_result_name name_match
         Hid Hcw Htotal Hartist Hgate1 Hgate2 Hsq Hdiff Hquot Hprod Htime
         Hsum2 Hsum3 Hmean.
  assert (Hstep : forall links,
             YouTube.order_step H song slug_song_name slug_song_title r links
             = ret (YouTube.dict_set (watch_url r) average_match links)).
  { intros links. unfold YouTube.order_step.
    rewrite Hid. fold slug_result_name. rewrite Hcw. cbn [negb].
    rewrite bind_lift, artist_match_number_total, Htotal.
    rewrite bind_lift, Hartist, Hgate1.
    fold name_match. rewrite Hgate2.
    unfold YouTube.time_match.
    rewrite Hsq. cbn [PyNum.and_then]. rewrite Hdiff. cbn [PyNum.and_then].
    rewrite Hquot. cbn [PyNum.and_then]. rewrite Hprod. cbn [PyNum.and_then].
    rewrite Htime, bind_lift, Hsum2, bind_lift, Hsum3, bind_lift, Hmean.
    reflexivity. }
  split; [exact Hstep|].
  intros before after d Hrun Hafter.
  unfold YouTube.order_results in Hrun.
  apply for_each_app_inv in Hrun as (mid & _ & Hrun).
  cbn [for_each] in Hrun.
  change (YouTube.slug_name H song) with slug_song_name in Hrun.
  change (YouTube.slug_title H self song) with slug_song_title in Hrun.
  rewrite Hstep, bind_ret_l in Hrun.
  rewrite (order_loop_keeps H _ _ _ _ _ _ _ Hrun Hafter).
  apply dict_get_set_same.
Qed.

(** C8 on the test doubles: a 200-second result of a 200-second song, with
    every intermediate value of the run. *)
Lemma C8_recorded_score_witness :
  YouTube.order_step (Fixtures.helpers Fixtures.answers) Fixtures.test_song
    "test" "a - test" (Fixtures.candidate "a - test" 200 "w") []
  = ret [(Some "w"%string, PyNum.PyFloat 6733.333333333333%float)].
Proof.
  refine (proj1 (proj1 C8_recorded_score_is_the_unclamped_mean
                   (Fixtures.helpers Fixtures.answers) Fixtures.scoring
                   Fixtures.test_song
                   (Fixtures.candidate "a - test" 200 "w") "w"%string
                   (PyNum.PyFloat 100%float) (PyNum.PyFloat 100%float)
                   (PyNum.PyInt 40000) (PyNum.PyInt (-39800))
                   (PyNum.PyFloat (-199)%float)
                   (PyNum.PyFloat (-19900)%float)
                   (PyNum.PyFloat 20000%float)
                   (PyNum.PyFloat 200%float) (PyNum.PyFloat 20200%float)
                   (PyNum.PyFloat 6733.333333333333%float)
                   _ _ _ _ _ _ _ _ _ _ _ _ _ _) []);
    vm_compute; reflexivity.
Defined.

(** C9 (the code departs from the claim). When the provider answers with an
    empty list, [search] returns [None] in scoring mode but raises
    [IndexError] in filter mode, where it reads [results[0]]; it returns
    [None] in both modes only when the provider answers [None]. *)
Theorem C9_empty_answer_in_filter_mode_raises :
  Fixtures.answers "a - nothing" = Returns (Some [])
  /\ YouTube.search (Fixtures.helpers Fixtures.answers) Fixtures.filtering
       Fixtures.nothing_song
     = ([YouTubeSearch "a - nothing"], Raises IndexError)
  /\ YouTube.search (Fixtures.helpers Fixtures.answers) Fixtures.scoring
       Fixtures.nothing_song
     = ([YouTubeSearch "a - nothing"], Returns None)
  /\ (forall (H : YouTube.Helpers) (self : YouTube.Provider) (song : Song)
             (term : string),
         (YouTube.get_results H term = Returns (Some []) ->
          YouTube.search_term H self song term
          = ([YouTubeSearch term],
             if YouTube.filter_results self then Raises IndexError
             else Returns None))
         /\ (YouTube.get_results H term = Returns None ->
             YouTube.search_term H self song term
             = ([YouTubeSearch term], Returns None))).
Proof.
  repeat split; try reflexivity.
  - intros Hget. unfold YouTube.search_term. rewrite Hget.
    now destruct (YouTube.filter_results self).
  - intros Hget. unfold YouTube.search_term. now rewrite Hget.
Qed.


(** ** More on the dispatcher: calls, worker count, simple songs *)

Section TraceFacts.

Context {A B : Type}.
Variable P : Call -> Prop.

Lemma trace_bind_Forall (m : M A) (k : A -> M B) :
  Forall P (trace m) -> (forall a, Forall P (trace (k a))) ->
  Forall P (trace (bind m k)).
Proof.
  intros Hm Hk. destruct m as [t [a|e]]; cbn in *; [|assumption].
  specialize (Hk a). destruct (k a) as [t' r]. cbn in *.
  apply Forall_app. now split.
Qed.

Lemma trace_call_Forall (c : Call) (r : outcome A) :
  P c -> Forall P (trace (call c r)).
Proof. intros Hc. cbn. now constructor. Qed.

Lemma trace_ret_Forall (a : A) : Forall P (trace (ret a)).
Proof. constructor. Qed.

End TraceFacts.

Section LoopTraceFacts.

Context {A S : Type}.
Variable P : Call -> Prop.
Variable body : A -> S -> M S.

Lemma for_each_trace_Forall (xs : list A) (acc : S) :
  (forall x a, Forall P (trace (body x a))) ->
  Forall P (trace (for_each body xs acc)).
Proof.
  intros Hbody. revert acc. induction xs as [|x xs IH]; intros acc.
  - constructor.
  - cbn [for_each]. apply trace_bind_Forall; [apply Hbody | exact IH].
Qed.

End LoopTraceFacts.

Ltac trace_steps :=
  repeat first
    [ apply trace_ret_Forall
    | apply trace_call_Forall; reflexivity
    | apply trace_bind_Forall; [|intros]
    | apply for_each_trace_Forall; intros ].

Section DispatcherCalls.

Import Query.

Variable W : Collaborators.

(** The loop of [parse_query] fetches at most the Spotify side of a paired
    token; it never starts the pool. *)
Lemma parse_step_no_pool (request : string) (st : pq_state) :
  Forall (fun c => Calls.is_pool c = false) (trace (parse_step W request st)).
Proof.
  unfold parse_step, extend_urls. destruct st as [us ss].
  repeat match goal with
         | |- context [if ?b then _ else _] => destruct b
         end; unfold raise; trace_steps; constructor.
Qed.

(** The loop of [get_simple_songs] neither fetches a track nor starts a
    pool. *)
Lemma simple_step_no_fetch (request : string) (st : gs_state) :
  Forall (fun c => Calls.is_fetch c || Calls.is_pool c = false)
         (trace (simple_step W request st)).
Proof.
  unfold simple_step. destruct st as [ss ls].
  repeat match goal with
         | |- context [if ?b then _ else _] => destruct b
         end; unfold raise; trace_steps; constructor.
Qed.

(** What a token adds to the state of [get_simple_songs] does not depend on
    what was collected before it. *)
Lemma simple_step_shift (request : string) (ss : list Song)
    (ls : list SongList) :
  simple_step W request (ss, ls)
  = map_result (fun d => (ss ++ fst d, ls ++ snd d))
               (simple_step W request ([], [])).
Proof.
  unfold simple_step.
  destruct (is_paired request).
  { destruct (bad_format (Py.split "|" request)); [reflexivity|].
    unfold map_result; cbn. now rewrite app_nil_r. }
  destruct (is_track request).
  { unfold map_result; cbn. now rewrite app_nil_r. }
  destruct (is_playlist request).
  { destruct (Playlist_create_basic_list W request); unfold map_result; cbn;
      [now rewrite app_nil_r | reflexivity]. }
  destruct (is_album request).
  { destruct (Album_create_basic_list W request); unfold map_result; cbn;
      [now rewrite app_nil_r | reflexivity]. }
  destruct (is_artist request).
  { destruct (Artist_create_basic_list W request); unfold map_result; cbn;
      [now rewrite app_nil_r | reflexivity]. }
  destruct (String.eqb request "saved").
  { destruct (Saved_create_basic_list W); unfold map_result; cbn;
      [now rewrite app_nil_r | reflexivity]. }
  destruct (Py.endswith ".spotdl" request).
  { destruct (load_manifest W request); unfold map_result; cbn;
      [now rewrite app_nil_r | reflexivity]. }
  destruct (Song_from_search_term W request); unfold map_result; cbn;
    [now rewrite app_nil_r | reflexivity].
Qed.

Lemma simple_loop_parts (query : list string) (st st' : gs_state) :
  result (for_each (simple_step W) query st) = Returns st' ->
  exists parts,
    Forall2 (fun tok p => result (simple_step W tok ([], [])) = Returns p)
            query parts
    /\ st' = (fst st ++ concat (map fst parts),
              snd st ++ concat (map snd parts)).
Proof.
  revert st. induction query as [|tok query IH]; intros [ss ls] Hrun.
  - cbn in Hrun. injection Hrun as <-. exists []. split; [constructor|].
    cbn. now rewrite !app_nil_r.
  - cbn [for_each] in Hrun.
    apply result_bind_inv in Hrun as (mid & Hstep & Hrest).
    rewrite simple_step_shift in Hstep. unfold map_result in Hstep.
    destruct (simple_step W tok ([], [])) as [t [p|e]] eqn:Hp;
      cbn in Hstep; [|discriminate].
    injection Hstep as <-.
    destruct (IH _ Hrest) as (parts & Hparts & ->).
    exists (p :: parts). split; [constructor; [now rewrite Hp | assumption]|].
    cbn [fst snd map concat]. now rewrite !app_assoc.
Qed.

Lemma simple_loop_of_parts (query : list string) (parts : list gs_state)
    (st : gs_state) :
  Forall2 (fun tok p => result (simple_step W tok ([], [])) = Returns p)
          query parts ->
  result (for_each (simple_step W) query st)
  = Returns (fst st ++ concat (map fst parts),
             snd st ++ concat (map snd parts)).
Proof.
  intros Hparts. revert st.
  induction Hparts as [|tok p query parts Hp _ IH]; intros [ss ls].
  - cbn. now rewrite !app_nil_r.
  - cbn [for_each].
    assert (Hstep : result (simple_step W tok (ss, ls))
                    = Returns (ss ++ fst p, ls ++ snd p)).
    { rewrite simple_step_shift. unfold map_result.
      destruct (simple_step W tok ([], [])) as [t [p'|e]]; cbn in Hp |- *;
        [now injection Hp as -> | discriminate]. }
    rewrite (result_bind_returns _ _ _ Hstep), IH.
    cbn [fst snd map concat]. now rewrite !app_assoc.
Qed.

End DispatcherCalls.

Section DispatcherBranches.

Local Open Scope string_scope.

Import Query.

Variable W : Collaborators.

(** A token without the Spotify host and without the first YouTube marker
    is taken by none of the first five branches. *)
Lemma no_host_no_branch (request : string) :
  Py.str_in "open.spotify.com" request = false ->
  Py.str_in "youtube.com/watch?v=" request = false ->
  is_paired request = false /\ is_track request = false
  /\ is_playlist request = false /\ is_album request = false
  /\ is_artist request = false.
Proof.
  intros Hs Hy.
  unfold is_paired, is_track, is_playlist, is_album, is_artist.
  rewrite Hs, Hy. cbn. rewrite !andb_false_r. cbn. tauto.
Qed.

Lemma extend_loop_ok (albums : list string) (urlss : list (list string))
    (us : list string) :
  Forall2 (fun a l => Album_get_urls W a = Returns l) albums urlss ->
  for_each (extend_urls W) albums us
  = (map AlbumGetUrls albums, Returns (us ++ concat urlss)%list).
Proof.
  intros Hall. revert us.
  induction Hall as [|a l albums urlss Ha _ IH]; intros us.
  - cbn. now rewrite app_nil_r.
  - cbn [for_each]. unfold extend_urls at 1. rewrite Ha.
    rewrite bind_call_returns. cbn [ret trace result fst snd bind].
    rewrite IH. cbn. now rewrite app_assoc.
Qed.

Lemma extend_loop_fails (pre post : list string) (a : string) (e : Exc)
    (urlss : list (list string)) (us : list string) :
  Forall2 (fun a l => Album_get_urls W a = Returns l) pre urlss ->
  Album_get_urls W a = Raises e ->
  for_each (extend_urls W) (pre ++ a :: post)%list us
  = (map AlbumGetUrls (pre ++ [a])%list, Raises e).
Proof.
  intros Hall Ha. revert us.
  induction Hall as [|b l pre urlss Hb _ IH]; intros us.
  - cbn [app for_each]. unfold extend_urls at 1. now rewrite Ha.
  - cbn [app for_each]. unfold extend_urls at 1. rewrite Hb.
    rewrite bind_call_returns. cbn [ret trace result fst snd bind].
    now rewrite IH.
Qed.

End DispatcherBranches.

(** With a worker count of zero or less [parse_query] never returns Songs:
    it raises the error of the loop when a token fails, and [ValueError]
    otherwise, also for an empty query and for a query with nothing to
    fetch. *)
Theorem parse_query_needs_a_worker
    (W : Query.Collaborators) (query : list string) (threads : Z) :
  (threads <= 0)%Z ->
  result (Query.parse_query W query threads)
  = match result (for_each (Query.parse_step W) query ([], [])) with
    | Returns _ => Raises (ValueError "max_workers must be greater than 0")
    | Raises e => Raises e
    end.
Proof.
  intros Ht. unfold Query.parse_query.
  destruct (for_each (Query.parse_step W) query ([], []))
    as [t [[urls songs]|e]]; [|reflexivity].
  cbn. unfold Query.executor_map.
  destruct (threads <=? 0)%Z eqn:E; [reflexivity|].
  apply Z.leb_gt in E. lia.
Qed.

(** No worker, nothing to fetch: the empty query and a lone search term. *)
Lemma parse_query_needs_a_worker_witness :
  result (Query.parse_query Fixtures.spotify [] 0)
  = Raises (ValueError "max_workers must be greater than 0")
  /\ result (Query.parse_query Fixtures.spotify ["hello"%string] (-1))
     = Raises (ValueError "max_workers must be greater than 0").
Proof.
  split.
  - apply (parse_query_needs_a_worker Fixtures.spotify [] 0). lia.
  - apply (parse_query_needs_a_worker Fixtures.spotify ["hello"%string] (-1)).
    lia.
Defined.

(** The calls of [parse_query]: those of the loop, none of which starts a
    pool, followed by one pool over all collected urls when the loop ran
    through and there is a worker. A token that fails therefore stops the
    dispatch before any batch is submitted. *)
Theorem parse_query_submits_one_batch_after_the_loop
    (W : Query.Collaborators) (query : list string) (threads : Z) :
  trace (Query.parse_query W query threads)
  = trace (for_each (Query.parse_step W) query ([], []))
    ++ Calls.pool_events threads
         (result (for_each (Query.parse_step W) query ([], [])))
  /\ Forall (fun c => Calls.is_pool c = false)
            (trace (for_each (Query.parse_step W) query ([], []))).
Proof.
  split.
  - unfold Query.parse_query.
    destruct (for_each (Query.parse_step W) query ([], []))
      as [t [[urls songs]|e]]; cbn; [|now rewrite app_nil_r].
    unfold Query.executor_map.
    destruct (threads <=? 0)%Z; cbn; [reflexivity|].
    destruct (in_order (Query.Song_from_url W) urls); cbn;
      now rewrite ?app_nil_r.
  - apply for_each_trace_Forall. intros. apply parse_step_no_pool.
Qed.

(** [get_simple_songs] returns exactly when every token is dispatched; its
    Songs are then the Songs built in the loop, token after token, followed
    by the members of the collected lists, list after list, each list in its
    own order. *)
Theorem get_simple_songs_direct_songs_then_list_members
    (W : Query.Collaborators) (query : list string) (songs : list Song) :
  result (Query.get_simple_songs W query) = Returns songs
  <-> exists parts : list Query.gs_state,
        Forall2 (fun tok p =>
                   result (Query.simple_step W tok ([], [])) = Returns p)
                query parts
        /\ songs = concat (map fst parts)
                   ++ Calls.members W (concat (map snd parts)).
Proof.
  unfold Query.get_simple_songs. split.
  - intros Hrun.
    apply result_bind_inv in Hrun as ([direct lists] & Hloop & Hret).
    cbn in Hret. injection Hret as <-.
    destruct (simple_loop_parts W query _ _ Hloop) as (parts & Hparts & Hst).
    cbn in Hst. injection Hst as -> ->.
    now exists parts.
  - intros (parts & Hparts & ->).
    now rewrite (result_bind_returns _ _ _
                   (simple_loop_of_parts W query parts ([], []) Hparts)).
Qed.

(** [get_simple_songs] never fetches the metadata of a track and never
    starts a pool, whatever the query. *)
Theorem get_simple_songs_never_fetches
    (W : Query.Collaborators) (query : list string) :
  Forall (fun c => Calls.is_fetch c || Calls.is_pool c = false)
         (trace (Query.get_simple_songs W query)).
Proof.
  unfold Query.get_simple_songs.
  apply trace_bind_Forall.
  - apply for_each_trace_Forall. intros. apply simple_step_no_fetch.
  - intros [songs lists]. constructor.
Qed.

(** A token with the Spotify host and [track] anywhere in it, and not taken
    by the first branch, is submitted as a track url, whatever else it
    contains: a playlist, album or artist url with [track] in it is never
    expanded, and a manifest path of that kind never opened. *)
Theorem track_marker_wins_over_later_branches
    (W : Query.Collaborators) (token : string) (threads : Z) :
  Query.is_paired token = false ->
  Py.str_in "open.spotify.com" token = true ->
  Py.str_in "track" token = true ->
  (0 < threads)%Z ->
  Query.parse_query W [token] threads
  = ([PoolMap threads [token]],
     match Query.Song_from_url W token with
     | Returns s => Returns [s]
     | Raises e => Raises e
     end)
  /\ Query.get_simple_songs W [token] = ([], Returns [Song_of_url token]).
Proof.
  intros Hp Hs Ht Hthreads.
  assert (Htrack : Query.is_track token = true)
    by (unfold Query.is_track; now rewrite Hs, Ht).
  split.
  - unfold Query.parse_query. cbn [for_each].
    unfold Query.parse_step. rewrite Hp, Htrack. cbn.
    unfold Query.executor_map.
    destruct (threads <=? 0)%Z eqn:E; [apply Z.leb_le in E; lia|].
    cbn. now destruct (Query.Song_from_url W token).
  - unfold Query.get_simple_songs. cbn [for_each].
    unfold Query.simple_step. now rewrite Hp, Htrack.
Qed.

(** A playlist url with [track] in its identifier is fetched as a track. *)
Lemma track_marker_wins_witness :
  Query.parse_query Fixtures.spotify [Fixtures.playlist_with_track] 1
  = ([PoolMap 1 [Fixtures.playlist_with_track]],
     Returns [Fixtures.song_named "fetched" Fixtures.playlist_with_track]).
Proof.
  refine (proj1 (track_marker_wins_over_later_branches
                   Fixtures.spotify Fixtures.playlist_with_track 1 _ _ _ _));
    reflexivity.
Defined.

(** An artist token (Spotify host and [artist], none of the earlier
    markers): the albums of the artist are requested, then the urls of each
    album in the order of the albums, and the urls are collected in that
    order; when the request for one album fails the later albums are not
    requested and the failure is raised. *)
Theorem artist_token_expands_every_album_in_order
    (W : Query.Collaborators) (token : string) (albums : list string) :
  Py.str_in "youtube.com/watch?v=" token = false ->
  Py.str_in "track" token = false ->
  Py.str_in "playlist" token = false ->
  Py.str_in "album" token = false ->
  Py.str_in "open.spotify.com" token = true ->
  Py.str_in "artist" token = true ->
  Query.Artist_get_albums W token = Returns albums ->
  (forall urlss us ss,
      Forall2 (fun a l => Query.Album_get_urls W a = Returns l) albums urlss ->
      Query.parse_step W token (us, ss)
      = (ArtistGetAlbums token :: map AlbumGetUrls albums,
         Returns (us ++ concat urlss, ss)))
  /\ (forall pre a post urlss e us ss,
         albums = pre ++ a :: post ->
         Forall2 (fun a l => Query.Album_get_urls W a = Returns l) pre urlss ->
         Query.Album_get_urls W a = Raises e ->
         Query.parse_step W token (us, ss)
         = (ArtistGetAlbums token :: map AlbumGetUrls (pre ++ [a]),
            Raises e)).
Proof.
  intros Hy Ht Hpl Hal Hs Har Halbums.
  assert (Hbranch :
    forall us ss,
      Query.parse_step W token (us, ss)
      = bind (call (ArtistGetAlbums token) (Returns albums))
             (fun albums =>
                bind (for_each (Query.extend_urls W) albums us)
                     (fun urls' => ret (urls', ss)))).
  { intros us ss. unfold Query.parse_step, Query.is_paired, Query.is_track,
      Query.is_playlist, Query.is_album, Query.is_artist.
    rewrite Hy, Ht, Hpl, Hal, Hs, Har, Halbums. cbn [andb orb].
    now rewrite !andb_false_r. }
  split.
  - intros urlss us ss Hall. rewrite Hbranch, bind_call_returns.
    rewrite (extend_loop_ok W albums urlss us Hall). cbn.
    now rewrite app_nil_r.
  - intros pre a post urlss e us ss -> Hall Ha.
    rewrite Hbranch, bind_call_returns.
    now rewrite (extend_loop_fails W pre post a e urlss us Hall Ha).
Qed.

(** The artist of the test doubles has one album with one track. *)
Lemma artist_token_expands_witness :
  Query.parse_step Fixtures.spotify Fixtures.artist_token ([], [])
  = ([ArtistGetAlbums Fixtures.artist_token;
      AlbumGetUrls (Fixtures.artist_token ++ "/album")%string],
     Returns ([(Fixtures.artist_token ++ "/album#1")%string], [])).
Proof.
  refine (proj1 (artist_token_expands_every_album_in_order
                   Fixtures.spotify Fixtures.artist_token
                   [(Fixtures.artist_token ++ "/album")%string]
                   _ _ _ _ _ _ _)
                [[(Fixtures.artist_token ++ "/album#1")%string]] [] [] _);
    try reflexivity.
  constructor; [reflexivity | constructor].
Defined.

(** What the first branch reads of a token it accepts: the text before the
    first separator becomes the download url, the text between the first and
    the second separator is fetched, and whatever follows a second separator
    is ignored. With the marker [youtube.com/watch?v=] in the first part, the
    second part only has to contain [spotify]: it need not be a track url. *)
Theorem paired_token_reads_its_first_two_parts
    (W : Query.Collaborators) (a b : string) (s : Song) :
  Py.str_in "youtube.com/watch?v=" a = true ->
  Py.str_in "|" a = false ->
  Py.str_in "spotify" b = true ->
  Py.str_in "|" b = false ->
  Query.Song_from_url W b = Returns s ->
  forall us ss,
    Query.parse_step W (a ++ "|" ++ b)%string (us, ss)
    = ([SongFromUrl b], Returns (us, ss ++ [Song_with_download_url s a]))
    /\ forall rest,
         Query.parse_step W (a ++ "|" ++ b ++ "|" ++ rest)%string (us, ss)
         = ([SongFromUrl b], Returns (us, ss ++ [Song_with_download_url s a])).
Proof.
  intros Hy Ha Hs Hb Hfetch us ss.
  assert (Hyt : Py.str_in "youtube" a = true)
    by (apply (str_in_trans _ "youtube.com/watch?v="); [reflexivity | assumption]).
  assert (Hgo : forall tail parts,
             Py.split "|" (a ++ "|" ++ tail)%string = a :: b :: parts ->
             Query.parse_step W (a ++ "|" ++ tail)%string (us, ss)
             = ([SongFromUrl b],
                Returns (us, ss ++ [Song_with_download_url s a]))).
  { intros tail parts Hsplit. unfold Query.parse_step.
    assert (Hp : Query.is_paired (a ++ "|" ++ tail)%string = true)
      by (apply is_paired_iff; left; now apply str_in_app_l).
    rewrite Hp, Hsplit. unfold Query.bad_format.
    cbn [List.length nth Nat.leb orb]. rewrite Hyt, Hs. cbn [negb andb orb].
    now rewrite Hfetch. }
  split.
  - apply (Hgo b []). now apply split_pair.
  - intros rest. apply (Hgo (b ++ "|" ++ rest)%string (Py.split "|" rest)).
    change ("|" ++ (b ++ "|" ++ rest))%string
      with (String "|" (b ++ String "|" rest)).
    now rewrite (split_app _ _ _ Ha), (split_app _ _ _ Hb).
Qed.

(** A second part that is no track url, and a third part that is dropped. *)
Lemma paired_token_reads_two_parts_witness :
  Query.parse_step Fixtures.spotify Fixtures.lax_token ([], [])
  = ([SongFromUrl "spotify"],
     Returns ([], [Song_with_download_url
                     (Fixtures.song_named "fetched" "spotify")
                     "youtube.com/watch?v=x"]))
  /\ Query.parse_step Fixtures.spotify Fixtures.three_part_token ([], [])
     = ([SongFromUrl "spotify.example/y"],
        Returns ([], [Song_with_download_url
                        (Fixtures.song_named "fetched" "spotify.example/y")
                        "youtube.com/watch?v=x"])).
Proof.
  split.
  - refine (proj1 (paired_token_reads_its_first_two_parts
                     Fixtures.spotify "youtube.com/watch?v=x" "spotify"
                     _ _ _ _ _ _ [] [])); reflexivity.
  - refine (proj2 (paired_token_reads_its_first_two_parts
                     Fixtures.spotify "youtube.com/watch?v=x"
                     "spotify.example/y" _ _ _ _ _ _ [] []) "ignored"%string);
      reflexivity.
Defined.

(** A token without the Spotify host and the first YouTube marker, other
    than the exact word [saved] and not ending in [.spotdl], is handed to
    [Song.from_search_term] as it is: the marker [saved] is matched exactly,
    so [Saved] or the empty string are search terms. *)
Theorem unmarked_token_is_a_search_term
    (W : Query.Collaborators) (token : string) :
  Py.str_in "open.spotify.com" token = false ->
  Py.str_in "youtube.com/watch?v=" token = false ->
  token <> "saved"%string ->
  Py.endswith ".spotdl" token = false ->
  forall us ss,
    Query.parse_step W token (us, ss)
    = ([SongFromSearchTerm token],
       match Query.Song_from_search_term W token with
       | Returns s => Returns (us, ss ++ [s])
       | Raises e => Raises e
       end).
Proof.
  intros Hs Hy Hsaved He us ss.
  destruct (no_host_no_branch token Hs Hy) as (Hp & Htr & Hpl & Hal & Har).
  apply String.eqb_neq in Hsaved.
  unfold Query.parse_step. rewrite Hp, Htr, Hpl, Hal, Har, Hsaved, He.
  now destruct (Query.Song_from_search_term W token).
Qed.

(** [Saved] with a capital and the empty token are search terms. *)
Lemma unmarked_token_witness :
  Query.parse_step Fixtures.spotify "Saved" ([], [])
  = ([SongFromSearchTerm "Saved"],
     Returns ([], [Fixtures.song_named "Saved" ""]))
  /\ Query.parse_step Fixtures.spotify "" ([], [])
     = ([SongFromSearchTerm ""], Returns ([], [Fixtures.song_named "" ""])).
Proof.
  split.
  - refine (unmarked_token_is_a_search_term Fixtures.spotify "Saved"
              _ _ _ _ [] []); try reflexivity. discriminate.
  - refine (unmarked_token_is_a_search_term Fixtures.spotify ""
              _ _ _ _ [] []); try reflexivity. discriminate.
Defined.

(** ** The string built-ins, once more *)

Section BuiltinFacts.

Local Open Scope string_scope.

Lemma str_in_cons_other (c a : ascii) (h : string) :
  a <> c -> Py.str_in (String c "") h = false ->
  Py.str_in (String c "") (String a h) = false.
Proof.
  intros Hne Hh.
  destruct (Py.str_in (String c "") (String a h)) eqn:E; [|reflexivity].
  apply str_in_iff in E as (pre & post & E).
  destruct pre as [|x pre]; cbn in E; injection E as E1 E2.
  - congruence.
  - assert (Py.str_in (String c "") h = true)
      by (apply str_in_iff; now exists pre, post).
    congruence.
Qed.

Lemma substring_all (s : string) : substring 0 (String.length s) s = s.
Proof. induction s as [|x s IH]; cbn; [reflexivity | now rewrite IH]. Qed.

Lemma substring_skip (pre suf : string) :
  substring (String.length pre) (String.length suf) (pre ++ suf) = suf.
Proof.
  induction pre as [|x pre IH]; cbn; [apply substring_all | exact IH].
Qed.

Lemma length_append (a b : string) :
  String.length (a ++ b) = (String.length a + String.length b)%nat.
Proof. induction a as [|x a IH]; cbn; [reflexivity | now rewrite IH]. Qed.

Lemma substring_tail (s : string) (n m : nat) :
  (n + m)%nat = String.length s ->
  exists pre, s = pre ++ substring n m s.
Proof.
  revert n. induction s as [|x s IH]; intros n Hlen.
  - exists "". cbn in Hlen. assert (n = 0%nat) by lia. assert (m = 0%nat) by lia.
    now subst.
  - destruct n as [|n].
    + exists "". cbn in Hlen. subst m. cbn.
      now rewrite substring_all.
    + cbn in Hlen. destruct (IH n) as [pre Hpre]; [lia|].
      exists (String x pre). cbn. now rewrite <- Hpre.
Qed.

End BuiltinFacts.

(** [split] and [join] undo each other: joining the parts of
    [s.split(c)] with [c] gives [s] back, no part contains [c], and there is
    always at least one part (the empty string splits into one empty
    part). *)
Theorem split_then_join_is_identity (c : ascii) (s : string) :
  String.concat (String c "") (Py.split c s) = s
  /\ Forall (fun part => Py.str_in (String c "") part = false) (Py.split c s)
  /\ Py.split c s <> [].
Proof.
  split; [|split; [|apply split_nonempty]].
  - induction s as [|a s IH]; [reflexivity|].
    cbn [Py.split]. destruct (Ascii.eqb a c) eqn:E.
    + apply Ascii.eqb_eq in E. subst a.
      pose proof (split_nonempty c s) as Hne.
      destruct (Py.split c s) as [|h t]; [contradiction|].
      change (String.concat (String c "") (""%string :: h :: t))
        with ("" ++ String c "" ++ String.concat (String c "") (h :: t))%string.
      now rewrite IH.
    + pose proof (split_nonempty c s) as Hne.
      destruct (Py.split c s) as [|h t]; [contradiction|].
      destruct t as [|h' t].
      * cbn in IH |- *. now rewrite IH.
      * change (String.concat (String c "") (String a h :: h' :: t))
          with (String a (h ++ String c ""
                            ++ String.concat (String c "") (h' :: t))%string).
        change (String.concat (String c "") (h :: h' :: t))
          with (h ++ String c ""
                  ++ String.concat (String c "") (h' :: t))%string
          in IH.
        now rewrite IH.
  - induction s as [|a s IH]; [repeat constructor|].
    cbn [Py.split]. destruct (Ascii.eqb a c) eqn:E.
    + constructor; [reflexivity | exact IH].
    + apply Ascii.eqb_neq in E.
      destruct (Py.split c s) as [|h t]; [repeat constructor|].
      * now apply str_in_cons_other.
      * inversion IH as [|? ? Hh Ht]; subst.
        constructor; [now apply str_in_cons_other | assumption].
Qed.

(** [endswith] holds exactly for the strings that end with the suffix;
    every string ends with the empty suffix. *)
Theorem endswith_is_suffix (suf s : string) :
  Py.endswith suf s = true <-> exists pre, s = (pre ++ suf)%string.
Proof.
  unfold Py.endswith. cbv zeta.
  rewrite andb_true_iff, Nat.leb_le, String.eqb_eq. split.
  - intros [Hle Hsub].
    destruct (substring_tail s (String.length s - String.length suf)
                (String.length suf)) as [pre Hpre]; [lia|].
    exists pre. now rewrite Hsub in Hpre.
  - intros [pre ->]. rewrite length_append. split; [lia|].
    replace (String.length pre + String.length suf - String.length suf)%nat
      with (String.length pre) by lia.
    apply substring_skip.
Qed.

(** ** More on the search provider: division by zero, calls *)

Section SurvivorFacts.

Import YouTube.

Variable H : Helpers.
Variable self : Provider.
Variable song : Song.

(** A step of the loop, for a song without artists: the division by the
    number of artists raises as soon as a candidate has an id and a common
    word. *)
Lemma order_step_no_artists (r : PyTube) (sn st : string) (acc : dict) :
  artists song = [] ->
  order_step H song sn st r acc
  = match video_id r with
    | Some _ =>
        if common_word sn (slugify H (title r)) then raise ZeroDivisionError
        else ret acc
    | None => ret acc
    end.
Proof.
  intros Hart. unfold order_step, artist_match_number. rewrite Hart.
  destruct (video_id r); [|reflexivity].
  now destruct (common_word _ _).
Qed.

Lemma order_loop_no_artists (results : list PyTube) (acc : dict) :
  artists song = [] ->
  for_each (order_step H song (slug_name H song) (slug_title H self song))
           results acc
  = ([], if existsb (Gates.has_id_and_word H song) results
         then Raises ZeroDivisionError else Returns acc).
Proof.
  intros Hart. induction results as [|r results IH]; [reflexivity|].
  cbn [for_each existsb]. rewrite (order_step_no_artists _ _ _ _ Hart).
  unfold Gates.has_id_and_word at 1.
  destruct (video_id r); [|now rewrite bind_ret_l].
  destruct (common_word _ _); [reflexivity | now rewrite bind_ret_l].
Qed.

(** What [search_term] makes of the outcome of [order_results]. *)
Lemma search_term_of_loop (term : string) (results : list PyTube)
    (o : outcome dict) :
  filter_results self = false ->
  get_results H term = Returns (Some results) ->
  order_results H self results song = ([], o) ->
  search_term H self song term
  = ([YouTubeSearch term],
     match o with
     | Returns d =>
         match sorted_desc d with
         | [] => if (List.length d =? 0)%nat then Returns None
                 else Raises IndexError
         | first :: _ => if (List.length d =? 0)%nat then Returns None
                         else Returns (fst first)
         end
     | Raises e => Raises e
     end).
Proof.
  intros Hmode Hget Hloop. unfold search_term.
  rewrite Hget, bind_call_returns, Hmode, Hloop.
  destruct o as [d|e]; [|reflexivity].
  cbn. destruct (List.length d =? 0)%nat; [now destruct (sorted_desc d)|].
  now destruct (sorted_desc d).
Qed.

Lemma search_term_no_artists (term : string) (results : list PyTube) :
  filter_results self = false ->
  artists song = [] ->
  get_results H term = Returns (Some results) ->
  search_term H self song term
  = ([YouTubeSearch term],
     if existsb (Gates.has_id_and_word H song) results
     then Raises ZeroDivisionError else Returns None).
Proof.
  intros Hmode Hart Hget.
  rewrite (search_term_of_loop term results
             (if existsb (Gates.has_id_and_word H song) results
              then Raises ZeroDivisionError else Returns [])
             Hmode Hget).
  - now destruct (existsb _ results).
  - unfold order_results. now apply order_loop_no_artists.
Qed.




End SurvivorFacts.

(** Scoring mode, a song whose artist list is empty. The search for the
    term of [search] (the rendered template, or the lowercased song title)
    raises [ZeroDivisionError] as soon as one candidate of the answer has a
    video id and shares a word with the song's name, and gives [None]
    otherwise. So [search] returns a watch url only when it is that of the
    single candidate of the ISRC lookup, and never for a song without ISRC
    or under a custom template. *)
Theorem song_without_artists_is_never_matched
    (H : YouTube.Helpers) (self : YouTube.Provider) (song : Song) :
  YouTube.filter_results self = false ->
  artists song = [] ->
  (forall results,
      YouTube.get_results H (YouTube.chosen_term H self song)
      = Returns (Some results) ->
      YouTube.search_term H self song (YouTube.chosen_term H self song)
      = ([YouTubeSearch (YouTube.chosen_term H self song)],
         if existsb (Gates.has_id_and_word H song) results
         then Raises ZeroDivisionError else Returns None))
  /\ (forall w,
         result (YouTube.search H self song) = Returns (Some w) ->
         Py.truthy (YouTube.search_query self) = false
         /\ exists i c,
              isrc song = Some i
              /\ i <> ""%string
              /\ YouTube.get_results H i = Returns (Some [c])
              /\ watch_url c = Some w)
  /\ (isrc song = None \/ Py.truthy (YouTube.search_query self) = true ->
      forall results,
        YouTube.get_results H (YouTube.chosen_term H self song)
        = Returns (Some results) ->
        YouTube.search H self song
        = ([YouTubeSearch (YouTube.chosen_term H self song)],
           if existsb (Gates.has_id_and_word H song) results
           then Raises ZeroDivisionError else Returns None)).
Proof.
  intros Hmode Hart.
  assert (Hterm : forall results,
      YouTube.get_results H (YouTube.chosen_term H self song)
      = Returns (Some results) ->
      YouTube.search_term H self song (YouTube.chosen_term H self song)
      = ([YouTubeSearch (YouTube.chosen_term H self song)],
         if existsb (Gates.has_id_and_word H song) results
         then Raises ZeroDivisionError else Returns None)).
  { intros results Hget.
    exact (search_term_no_artists H self song _ results Hmode Hart Hget). }
  split; [exact Hterm|]. split.
  - intros w Hrun.
    destruct (search_result_cases H self song w Hrun) as [Hscored | Hisrc];
      [|exact Hisrc].
    destruct (YouTube.get_results H (YouTube.chosen_term H self song))
      as [[results|]|e] eqn:Hget.
    + rewrite (Hterm results eq_refl) in Hscored. cbn in Hscored.
      destruct (existsb _ results); discriminate Hscored.
    + unfold YouTube.search_term in Hscored. rewrite Hget in Hscored.
      discriminate Hscored.
    + unfold YouTube.search_term in Hscored. rewrite Hget in Hscored.
      discriminate Hscored.
  - intros Hno results Hget. rewrite <- (Hterm results Hget).
    unfold YouTube.search, YouTube.chosen_term, YouTube.text_search.
    destruct Hno as [Hno | Hno]; rewrite Hno; [|reflexivity].
    now destruct (Py.truthy (YouTube.search_query self)).
Qed.

(** The song of the example without its artist: the first candidate shares
    the word [test]. *)
Lemma song_without_artists_witness :
  YouTube.search (Fixtures.helpers Fixtures.answers_no_artist)
    Fixtures.scoring Fixtures.no_artist_song
  = ([YouTubeSearch " - test"], Raises ZeroDivisionError).
Proof.
  refine (proj2 (proj2 (song_without_artists_is_never_matched
                          (Fixtures.helpers Fixtures.answers_no_artist)
                          Fixtures.scoring Fixtures.no_artist_song _ _))
                _
                [Fixtures.candidate "a - test" 200
                   "https://youtube.com/watch?v=1";
                 Fixtures.candidate "unrelated" 200
                   "https://youtube.com/watch?v=2"] _).
  - reflexivity.
  - reflexivity.
  - left. reflexivity.
  - reflexivity.
Defined.



(** With a custom search template [search] is the scoring part run on the
    rendered template: the ISRC of the song is not looked up, and the
    provider is asked once. *)
Theorem template_skips_the_isrc_lookup
    (H : YouTube.Helpers) (self : YouTube.Provider) (song : Song) :
  Py.truthy (YouTube.search_query self) = true ->
  YouTube.search H self song
  = YouTube.search_term H self song
      (YouTube.create_search_query H song (YouTube.template self))
  /\ trace (YouTube.search H self song)
     = [YouTubeSearch
          (YouTube.create_search_query H song (YouTube.template self))].
Proof.
  intros Htpl. unfold YouTube.search. rewrite Htpl.
  split; [reflexivity | apply search_term_trace].
Qed.

(** A song with an ISRC, a provider with a template: one call, no lookup. *)
Lemma template_skips_the_isrc_lookup_witness :
  trace (YouTube.search (Fixtures.helpers Fixtures.answers) Fixtures.templated
           Fixtures.isrc_song)
  = [YouTubeSearch "a - test"].
Proof.
  refine (proj2 (template_skips_the_isrc_lookup
                   (Fixtures.helpers Fixtures.answers) Fixtures.templated
                   Fixtures.isrc_song _)).
  reflexivity.
Defined.

(** The three shapes of the calls of [search]. *)
Lemma search_trace_cases
    (H : YouTube.Helpers) (self : YouTube.Provider) (song : Song) :
  (exists term, trace (YouTube.search H self song) = [YouTubeSearch term])
  \/ (exists i term,
         isrc song = Some i /\ i <> ""%string
         /\ trace (YouTube.search H self song)
            = [YouTubeSearch i; YouTubeSearch term]).
Proof.
  assert (Hone : forall term,
             trace (YouTube.search_term H self song term)
             = [YouTubeSearch term]) by (intros; apply search_term_trace).
  unfold YouTube.search, YouTube.text_search.
  destruct (Py.truthy (YouTube.search_query self)); [left; eauto|].
  destruct (isrc song) as [i|]; [|left; eauto].
  destruct (String.eqb i "") eqn:Ei; [left; eauto|].
  apply String.eqb_neq in Ei.
  destruct (YouTube.get_results H i) as [[cs|]|e];
    [| |left; now exists i].
  - rewrite bind_call_returns. cbn [trace fst].
    destruct cs as [|c [|c' cs]]; rewrite ?Hone; [right; eauto | | right; eauto].
    destruct (watch_url c); rewrite ?Hone; [left; now exists i | right; eauto].
  - rewrite bind_call_returns. cbn [trace fst]. rewrite Hone. right; eauto.
Qed.

(** [search] asks the provider at most twice and calls nothing else; it
    asks exactly once when the song has no ISRC or an empty one. *)
Theorem search_asks_the_provider_at_most_twice
    (H : YouTube.Helpers) (self : YouTube.Provider) (song : Song) :
  (List.length (trace (YouTube.search H self song)) <= 2)%nat
  /\ Forall (fun c => Calls.is_search c = true)
            (trace (YouTube.search H self song))
  /\ (isrc song = None \/ isrc song = Some ""%string ->
      List.length (trace (YouTube.search H self song)) = 1%nat).
Proof.
  destruct (search_trace_cases H self song)
    as [[term ->] | (i & term & Hi & Hne & ->)].
  - repeat split; [cbn; lia | repeat constructor].
  - repeat split; [cbn; lia | repeat constructor|].
    intros [Hn | Hn]; rewrite Hi in Hn; [discriminate | congruence].
Qed.

(** The ISRC lookup in its two remaining cases: a single candidate without
    watch url sends [search] on to the text search, and a lookup that fails
    makes [search] raise that failure, without a text search. *)
Theorem isrc_lookup_without_url_or_failing
    (H : YouTube.Helpers) (self : YouTube.Provider) (song : Song)
    (i : string) :
  Py.truthy (YouTube.search_query self) = false ->
  isrc song = Some i ->
  i <> ""%string ->
  (forall c,
      YouTube.get_results H i = Returns (Some [c]) ->
      watch_url c = None ->
      YouTube.search H self song
      = ([YouTubeSearch i;
          YouTubeSearch (YouTube.str_lower H
                           (YouTube.create_song_title H (name song) (artists song)))],
         result (YouTube.text_search H self song)))
  /\ (forall e,
         YouTube.get_results H i = Raises e ->
         YouTube.search H self song = ([YouTubeSearch i], Raises e)).
Proof.
  intros Htpl Hisrc Hne. apply String.eqb_neq in Hne.
  unfold YouTube.search. rewrite Htpl, Hisrc, Hne. split.
  - intros c Hget Hw. rewrite Hget, bind_call_returns, Hw.
    unfold YouTube.text_search at 1. now rewrite search_term_trace.
  - intros e Hget. now rewrite Hget.
Qed.

(** An ISRC answered by one candidate without watch url. *)
Lemma isrc_lookup_without_url_witness :
  YouTube.search (Fixtures.helpers Fixtures.answers_with_dead_isrc)
    Fixtures.scoring Fixtures.dead_isrc_song
  = ([YouTubeSearch Fixtures.dead_isrc; YouTubeSearch "a - test"],
     Returns (Some "https://youtube.com/watch?v=1"%string)).
Proof.
  refine (proj1 (isrc_lookup_without_url_or_failing
                   (Fixtures.helpers Fixtures.answers_with_dead_isrc)
                   Fixtures.scoring Fixtures.dead_isrc_song
                   Fixtures.dead_isrc _ _ _)
                (mkPyTube (Some "id"%string) "test" 200 None) _ _).
  - reflexivity.
  - reflexivity.
  - discriminate.
  - reflexivity.
  - reflexivity.
Defined.

Section ProvenanceFacts.

Import YouTube.

Variable H : Helpers.
Variable self : Provider.
Variable song : Song.

(** In both modes, a watch url returned by the scoring part of [search] is
    the watch url of a candidate of the provider's answer. *)
Lemma search_term_returns_a_candidate (term : string) (w : string) :
  result (search_term H self song term) = Returns (Some w) ->
  exists results r,
    get_results H term = Returns (Some results)
    /\ In r results /\ watch_url r = Some w.
Proof.
  unfold search_term.
  destruct (get_results H term) as [[results|]|e] eqn:Hget;
    [| discriminate | discriminate].
  rewrite bind_call_returns. cbn [result snd].
  destruct (filter_results self) eqn:Hmode.
  - destruct results as [|first rest]; [discriminate|].
    cbn. intros [= Hw]. exists (first :: rest), first.
    split; [reflexivity | split; [now left | assumption]].
  - intros Hrun. apply result_bind_inv in Hrun as (d & Hd & Hpick).
    destruct (List.length d =? 0)%nat; [discriminate|].
    destruct (sorted_desc d) as [|[k v] rest] eqn:Hs; [discriminate|].
    cbn in Hpick. injection Hpick as ->.
    assert (Hin : In (Some w, v) d)
      by (apply sorted_desc_in; rewrite Hs; now left).
    unfold order_results in Hd.
    destruct (order_loop_keys H
                (fun k => exists r, In r results /\ watch_url r = k)
                song _ _ results [] d Hd) with (kv := (Some w, v))
      as (r & Hr & Hw); [intros kv [] | | assumption |].
    + intros r Hr _ _. now exists r.
    + exists results, r. now repeat split.
Qed.

End ProvenanceFacts.

(** [search] never makes up a watch url: whatever the mode, a url it returns
    is the watch url of a candidate that the provider answered with, for a
    term that [search] asked for. *)
Theorem search_returns_a_url_of_the_provider
    (H : YouTube.Helpers) (self : YouTube.Provider) (song : Song)
    (w : string) :
  result (YouTube.search H self song) = Returns (Some w) ->
  exists term results r,
    In (YouTubeSearch term) (trace (YouTube.search H self song))
    /\ YouTube.get_results H term = Returns (Some results)
    /\ In r results
    /\ watch_url r = Some w.
Proof.
  assert (Hterm : forall term pre,
             result (YouTube.search_term H self song term) = Returns (Some w) ->
             exists term' results r,
               In (YouTubeSearch term')
                  (pre ++ trace (YouTube.search_term H self song term))
               /\ YouTube.get_results H term' = Returns (Some results)
               /\ In r results /\ watch_url r = Some w).
  { intros term pre Hrun.
    destruct (search_term_returns_a_candidate H self song term w Hrun)
      as (results & r & Hget & Hr & Hw).
    exists term, results, r. repeat split; try assumption.
    rewrite search_term_trace. apply in_or_app. right. now left. }
  unfold YouTube.search, YouTube.text_search.
  destruct (Py.truthy (YouTube.search_query self)); [apply (Hterm _ [])|].
  destruct (isrc song) as [i|]; [|apply (Hterm _ [])].
  destruct (String.eqb i ""); [apply (Hterm _ [])|].
  destruct (YouTube.get_results H i) as [[cs|]|e] eqn:Hi; [| |discriminate].
  - rewrite bind_call_returns. cbn [trace result fst snd].
    destruct cs as [|c [|c' cs]];
      [apply (Hterm _ [YouTubeSearch i]) | |
       apply (Hterm _ [YouTubeSearch i])].
    destruct (watch_url c) as [w'|] eqn:Hw;
      [|apply (Hterm _ [YouTubeSearch i])].
    cbn. intros [= ->]. exists i, [c], c.
    repeat split; [now left | assumption | now left | assumption].
  - rewrite bind_call_returns. cbn [trace result fst snd].
    apply (Hterm _ [YouTubeSearch i]).
Qed.

(** The url returned for the song of the example. *)
Lemma search_returns_a_url_of_the_provider_witness :
  exists term results r,
    In (YouTubeSearch term)
       (trace (YouTube.search (Fixtures.helpers Fixtures.answers)
                 Fixtures.scoring Fixtures.test_song))
    /\ Fixtures.answers term = Returns (Some results)
    /\ In r results
    /\ watch_url r = Some "https://youtube.com/watch?v=1"%string.
Proof.
  apply (search_returns_a_url_of_the_provider
           (Fixtures.helpers Fixtures.answers) Fixtures.scoring
           Fixtures.test_song "https://youtube.com/watch?v=1").
  reflexivity.
Defined.

Section DictInvariants.

Import YouTube.

Lemma dict_set_key_in (k k' : option string) (v : PyNum.pynum) (d : dict) :
  In k' (map fst (dict_set k v d)) -> k' = k \/ In k' (map fst d).
Proof.
  intros Hin. apply in_map_iff in Hin as (kv & <- & Hkv).
  apply dict_set_keys in Hkv as [Hk | Hd]; [now left|].
  right. now apply in_map.
Qed.

Lemma dict_set_NoDup (k : option string) (v : PyNum.pynum) (d : dict) :
  NoDup (map fst d) -> NoDup (map fst (dict_set k v d)).
Proof.
  induction d as [|[k' v'] d IH]; intros Hnd; cbn.
  - repeat constructor. intros [].
  - inversion Hnd as [|? ? Hnotin Hnd']; subst.
    destruct (key_eqb k k') eqn:E; cbn.
    + apply key_eqb_eq in E. subst k'. now constructor.
    + constructor; [|now apply IH].
      intros Hin. apply dict_set_key_in in Hin as [-> | Hin];
        [|contradiction].
      rewrite key_eqb_refl in E. discriminate.
Qed.

Lemma dict_set_length (k : option string) (v : PyNum.pynum) (d : dict) :
  (List.length (dict_set k v d) <= S (List.length d))%nat.
Proof.
  induction d as [|[k' v'] d IH]; cbn; [lia|].
  destruct (key_eqb k k'); cbn; lia.
Qed.

Lemma order_loop_invariant (H : Helpers) (song : Song) (sn st : string)
    (l : list PyTube) (acc d : dict) :
  result (for_each (order_step H song sn st) l acc) = Returns d ->
  NoDup (map fst acc) ->
  NoDup (map fst d)
  /\ (List.length d <= List.length acc + List.length l)%nat.
Proof.
  revert acc. induction l as [|r l IH]; intros acc Hrun Hnd.
  - cbn in Hrun. injection Hrun as <-. split; [assumption | lia].
  - cbn [for_each] in Hrun.
    apply result_bind_inv in Hrun as (mid & Hstep & Hrest).
    destruct (order_step_cases _ _ _ _ _ _ _ Hstep) as [-> | (v & -> & _)].
    + destruct (IH _ Hrest Hnd) as [Hd Hlen]. split; [assumption|].
      cbn [List.length]. lia.
    + destruct (IH _ Hrest (dict_set_NoDup _ v _ Hnd)) as [Hd Hlen].
      split; [assumption|].
      pose proof (dict_set_length (watch_url r) v acc). cbn [List.length]. lia.
Qed.

End DictInvariants.

(** The dictionary that [order_results] returns has no watch url twice, at
    most one entry per candidate, and only watch urls of candidates of the
    result list as keys: candidates that share a watch url share one
    entry. *)
Theorem order_results_has_one_entry_per_url
    (H : YouTube.Helpers) (self : YouTube.Provider) (song : Song)
    (results : list PyTube) (d : YouTube.dict) :
  result (YouTube.order_results H self results song) = Returns d ->
  NoDup (map fst d)
  /\ (List.length d <= List.length results)%nat
  /\ forall k, In k (map fst d) ->
               exists r, In r results /\ watch_url r = k.
Proof.
  intros Hrun. unfold YouTube.order_results in Hrun.
  destruct (order_loop_invariant H song _ _ results [] d Hrun) as [Hnd Hlen];
    [constructor|].
  split; [assumption | split; [exact Hlen|]].
  intros k Hk. apply in_map_iff in Hk as (kv & <- & Hkv).
  apply (order_loop_keys H
           (fun k => exists r, In r results /\ watch_url r = k)
           song _ _ results [] d Hrun); [intros ? [] | | assumption].
  intros r Hr _ _. now exists r.
Qed.

(** Two surviving candidates with the same watch url: one entry. *)
Lemma order_results_one_entry_witness :
  exists d,
    result (YouTube.order_results (Fixtures.helpers Fixtures.answers)
              Fixtures.scoring
              [Fixtures.candidate "a - test" 200 "w";
               Fixtures.candidate "a - test" 100 "w"] Fixtures.test_song)
    = Returns d
    /\ List.length d = 1%nat
    /\ NoDup (map fst d)
    /\ (List.length d <= 2)%nat
    /\ forall k, In k (map fst d) ->
                 exists r,
                   In r [Fixtures.candidate "a - test" 200 "w";
                         Fixtures.candidate "a - test" 100 "w"]
                   /\ watch_url r = k.
Proof.
  eexists. split; [vm_compute; reflexivity|]. split; [reflexivity|].
  apply (order_results_has_one_entry_per_url
           (Fixtures.helpers Fixtures.answers) Fixtures.scoring
           Fixtures.test_song
           [Fixtures.candidate "a - test" 200 "w";
            Fixtures.candidate "a - test" 100 "w"]).
  vm_compute. reflexivity.
Defined.

(** ** The progress hooks *)

Section HookFacts.

Context {Hook : Type}.

Let append (hs : list Hook) (h : Hook) : list Hook := hs ++ [h].

Lemma flat_map_seq_S {A : Type} (f : nat -> list A) (a n : nat) :
  flat_map f (seq (S a) n) = flat_map (fun k => f (S k)) (seq a n).
Proof.
  revert a. induction n as [|n IH]; intros a; [reflexivity|].
  cbn [seq flat_map]. now rewrite IH.
Qed.

(** Hooks added to a provider that already holds [p] and has registered
    [h]: every call registers all the hooks held so far once more. *)
Lemma add_all_from (p h hooks : list Hook) :
  Hooks.add_all Hook append (Hooks.mkState Hook p h) hooks
  = Hooks.mkState Hook (p ++ hooks)
      (h ++ flat_map (fun n => p ++ firstn n hooks)
                     (seq 1 (List.length hooks))).
Proof.
  revert p h. induction hooks as [|x hooks IH]; intros p h.
  - cbn. now rewrite !app_nil_r.
  - unfold Hooks.add_all in *. cbn [fold_left].
    unfold Hooks.add_progress_hook at 2.
    cbn [Hooks.progress_hooks Hooks.handler_hooks]. unfold append at 2 3.
    rewrite IH. f_equal; [now rewrite <- app_assoc|].
    cbn [List.length]. change (seq 1 (S (List.length hooks)))
      with (1%nat :: seq 2 (List.length hooks)).
    cbn [flat_map firstn].
    rewrite (flat_map_seq_S (fun n => p ++ firstn n (x :: hooks)) 1).
    rewrite <- !app_assoc. do 3 f_equal.
    apply flat_map_ext. intros n. cbn [firstn].
    now rewrite <- app_assoc.
Qed.

Lemma triangle_length (hooks : list Hook) (m : nat) :
  (m <= List.length hooks)%nat ->
  (2 * List.length (flat_map (fun n => firstn n hooks) (seq 1 m))
   = m * (m + 1))%nat.
Proof.
  induction m as [|m IH]; intros Hm; [reflexivity|].
  rewrite seq_S, flat_map_app, length_app. cbn [flat_map].
  rewrite app_nil_r, length_firstn.
  replace (Nat.min (1 + m) (List.length hooks)) with (S m) by lia.
  specialize (IH ltac:(lia)). lia.
Qed.

End HookFacts.

(** When the base class appends the hook to [self.progress_hooks], every
    call of [add_progress_hook] registers with yt-dlp all the hooks added so
    far, not only the new one: after [n] hooks were added to a fresh
    provider, yt-dlp holds the first hook, then the first two, ..., then all
    [n], that is [n (n + 1) / 2] registrations. *)
Theorem add_progress_hook_registers_earlier_hooks_again
    (Hook : Type) (base : list Hook -> Hook -> list Hook)
    (hooks : list Hook) :
  (forall hs h, base hs h = hs ++ [h]) ->
  Hooks.progress_hooks Hook
    (Hooks.add_all Hook base (Hooks.fresh Hook) hooks) = hooks
  /\ Hooks.handler_hooks Hook
       (Hooks.add_all Hook base (Hooks.fresh Hook) hooks)
     = flat_map (fun n => firstn n hooks) (seq 1 (List.length hooks))
  /\ (2 * List.length (Hooks.handler_hooks Hook
                         (Hooks.add_all Hook base (Hooks.fresh Hook) hooks))
      = List.length hooks * (List.length hooks + 1))%nat.
Proof.
  intros Hbase.
  assert (Hsame : forall st,
             Hooks.add_all Hook base st hooks
             = Hooks.add_all Hook (fun hs h => hs ++ [h]) st hooks).
  { unfold Hooks.add_all. induction hooks as [|x l IH]; intros st;
      [reflexivity|].
    cbn [fold_left]. unfold Hooks.add_progress_hook at 2 4.
    rewrite Hbase. apply IH. }
  rewrite Hsame. unfold Hooks.fresh.
  rewrite (add_all_from [] [] hooks). cbn [Hooks.progress_hooks
    Hooks.handler_hooks app].
  split; [reflexivity | split; [reflexivity|]].
  now apply triangle_length.
Qed.

(** Three hooks: six registrations. *)
Lemma add_progress_hook_witness :
  Hooks.handler_hooks nat
    (Hooks.add_all nat (fun hs h => hs ++ [h]) (Hooks.fresh nat) [1; 2; 3]%nat)
  = [1; 1; 2; 1; 2; 3]%nat.
Proof.
  refine (proj1 (proj2 (add_progress_hook_registers_earlier_hooks_again
                          nat (fun hs h => hs ++ [h]) [1; 2; 3]%nat _))).
  reflexivity.
Defined.
